(** * The chat page of the Podcast Digest Agent front end

    A shallow embedding of the [Home] component of the front end (its
    source follows the constants in [frontend/app/api/constants.ts]): the
    handlers [handleSubmit], [handleDeletePDF] and [loadUploadedPDFs], the
    streaming loop that scans the response for [__TOOL_USAGE__] markers,
    and the React state they read and write.

    Conventions.
    - A JavaScript string is a [string]: every [ascii] stands for one code
      unit in the range 0..255.  Of ECMAScript's white space and line
      terminators, the ones in that range are modelled.
    - A handler is a closure created by one render of [Home].  The state
      variables it mentions ([userMessage], [selectedPDF], [isUsingTool],
      ...) are the constants of that render, written [r] below.  The
      setters act on the store that the next render will read, written
      [s].  [setMessages] is always called with an updater function, so it
      sees the store; a plain read of a state variable inside a handler sees
      the render.
    - The network, the clock and the dialogs are inputs of the handlers;
      what a handler asks of them is returned as a list of [Effect]s. *)

From Stdlib Require Import ZArith Ascii String.
From stdpp Require Import base list strings.

Local Open Scope string_scope.
Local Open Scope list_scope.

(** ** JavaScript strings *)

Module JS.

(** [WhiteSpace] and [LineTerminator] code units below 256: TAB, LF, VT,
    FF, CR, SP and NBSP. *)
Definition isWhiteSpace (c : ascii) : bool :=
  match c with
  | "009" | "010" | "011" | "012" | "013" | " " | "160" => true
  | _ => false
  end%char.

(** What the regular expression atom [.] refuses: LF and CR. *)
Definition isLineTerminator (c : ascii) : bool :=
  match c with
  | "010" | "013" => true
  | _ => false
  end%char.

Fixpoint trimStart (s : string) : string :=
  match s with
  | "" => ""
  | String c s' => if isWhiteSpace c then trimStart s' else s
  end.

Fixpoint trimEnd (s : string) : string :=
  match s with
  | "" => ""
  | String c s' =>
      match trimEnd s' with
      | "" => if isWhiteSpace c then "" else String c ""
      | t => String c t
      end
  end.

(** [String.prototype.trim] *)
Definition trim (s : string) : string := trimEnd (trimStart s).

(** [ToBoolean] on a string: only the empty string is falsy. *)
Definition truthy (s : string) : bool :=
  match s with
  | "" => false
  | String _ _ => true
  end.

(** [a || b] on strings *)
Definition or_else (a b : string) : string := if truthy a then a else b.

(** Matching the literal [p] at the head of [s]: the rest of [s] behind
    it. *)
Fixpoint literal (p s : string) : option string :=
  match p, s with
  | "", _ => Some s
  | String a p', String b s' => if Ascii.eqb a b then literal p' s' else None
  | String _ _, "" => None
  end.

Definition startsWith (p s : string) : bool :=
  match literal p s with
  | Some _ => true
  | None => false
  end.

(** [s.includes(p)] *)
Fixpoint includes (p s : string) : bool :=
  startsWith p s ||
  match s with
  | "" => false
  | String _ s' => includes p s'
  end.

End JS.

(** ** The tool marker

    [chunk.match(/__TOOL_USAGE__(.+?)__TOOL_USAGE__/)], as a backtracking
    matcher: the leftmost start, and from there the shortest group. *)

Module Marker.
Import JS.

Definition SENTINEL : string := "__TOOL_USAGE__".

(** The lazy group [(.+?)] has taken [group] already; close it as soon as
    the closing literal follows, otherwise take one more unit. *)
Fixpoint lazyGroup (group rest : string) : option string :=
  match literal SENTINEL rest with
  | Some _ => Some group
  | None =>
      match rest with
      | "" => None
      | String c rest' =>
          if isLineTerminator c then None
          else lazyGroup (group +:+ String c "") rest'
      end
  end.

(** One attempt, anchored at the head of [s]. *)
Definition matchHere (s : string) : option string :=
  match literal SENTINEL s with
  | Some (String c rest) =>
      if isLineTerminator c then None else lazyGroup (String c "") rest
  | _ => None
  end.

(** [toolMatch[1]] when [chunk.match(...)] is not null. *)
Fixpoint toolMatch (chunk : string) : option string :=
  match matchHere chunk with
  | Some toolName => Some toolName
  | None =>
      match chunk with
      | "" => None
      | String _ chunk' => toolMatch chunk'
      end
  end.

End Marker.

(** ** The state of [Home] *)

Inductive Role := user | assistant.

Record Message := {
  role : Role;
  content : string;
  timestamp : Z
}.

Record UploadedPDF := {
  pdf_id : string;
  filename : string;
  chunks_count : Z
}.

(** One field per [useState] of the component, in the order of the source. *)
Record State := {
  messages : list Message;
  userMessage : string;
  developerMessage : string;
  apiKey : string;
  tavilyApiKey : string;
  model : string;
  isLoading : bool;
  isStreaming : bool;
  isUploading : bool;
  uploadedPDFs : list UploadedPDF;
  selectedPDF : string;
  isPDFSectionCollapsed : bool;
  isConfigSectionCollapsed : bool;
  currentTool : string;
  isUsingTool : bool
}.

Definition isAssistant (x : Role) : bool :=
  match x with
  | assistant => true
  | user => false
  end.

(** The setters the handlers call. *)
Definition setMessages (f : list Message → list Message) (s : State) : State :=
  {| messages := f (messages s); userMessage := userMessage s;
     developerMessage := developerMessage s; apiKey := apiKey s;
     tavilyApiKey := tavilyApiKey s; model := model s;
     isLoading := isLoading s; isStreaming := isStreaming s;
     isUploading := isUploading s; uploadedPDFs := uploadedPDFs s;
     selectedPDF := selectedPDF s;
     isPDFSectionCollapsed := isPDFSectionCollapsed s;
     isConfigSectionCollapsed := isConfigSectionCollapsed s;
     currentTool := currentTool s; isUsingTool := isUsingTool s |}.

Definition setUserMessage (v : string) (s : State) : State :=
  {| messages := messages s; userMessage := v;
     developerMessage := developerMessage s; apiKey := apiKey s;
     tavilyApiKey := tavilyApiKey s; model := model s;
     isLoading := isLoading s; isStreaming := isStreaming s;
     isUploading := isUploading s; uploadedPDFs := uploadedPDFs s;
     selectedPDF := selectedPDF s;
     isPDFSectionCollapsed := isPDFSectionCollapsed s;
     isConfigSectionCollapsed := isConfigSectionCollapsed s;
     currentTool := currentTool s; isUsingTool := isUsingTool s |}.

Definition setIsLoading (v : bool) (s : State) : State :=
  {| messages := messages s; userMessage := userMessage s;
     developerMessage := developerMessage s; apiKey := apiKey s;
     tavilyApiKey := tavilyApiKey s; model := model s;
     isLoading := v; isStreaming := isStreaming s;
     isUploading := isUploading s; uploadedPDFs := uploadedPDFs s;
     selectedPDF := selectedPDF s;
     isPDFSectionCollapsed := isPDFSectionCollapsed s;
     isConfigSectionCollapsed := isConfigSectionCollapsed s;
     currentTool := currentTool s; isUsingTool := isUsingTool s |}.

Definition setIsStreaming (v : bool) (s : State) : State :=
  {| messages := messages s; userMessage := userMessage s;
     developerMessage := developerMessage s; apiKey := apiKey s;
     tavilyApiKey := tavilyApiKey s; model := model s;
     isLoading := isLoading s; isStreaming := v;
     isUploading := isUploading s; uploadedPDFs := uploadedPDFs s;
     selectedPDF := selectedPDF s;
     isPDFSectionCollapsed := isPDFSectionCollapsed s;
     isConfigSectionCollapsed := isConfigSectionCollapsed s;
     currentTool := currentTool s; isUsingTool := isUsingTool s |}.

Definition setUploadedPDFs (v : list UploadedPDF) (s : State) : State :=
  {| messages := messages s; userMessage := userMessage s;
     developerMessage := developerMessage s; apiKey := apiKey s;
     tavilyApiKey := tavilyApiKey s; model := model s;
     isLoading := isLoading s; isStreaming := isStreaming s;
     isUploading := isUploading s; uploadedPDFs := v;
     selectedPDF := selectedPDF s;
     isPDFSectionCollapsed := isPDFSectionCollapsed s;
     isConfigSectionCollapsed := isConfigSectionCollapsed s;
     currentTool := currentTool s; isUsingTool := isUsingTool s |}.

Definition setSelectedPDF (v : string) (s : State) : State :=
  {| messages := messages s; userMessage := userMessage s;
     developerMessage := developerMessage s; apiKey := apiKey s;
     tavilyApiKey := tavilyApiKey s; model := model s;
     isLoading := isLoading s; isStreaming := isStreaming s;
     isUploading := isUploading s; uploadedPDFs := uploadedPDFs s;
     selectedPDF := v;
     isPDFSectionCollapsed := isPDFSectionCollapsed s;
     isConfigSectionCollapsed := isConfigSectionCollapsed s;
     currentTool := currentTool s; isUsingTool := isUsingTool s |}.

Definition setCurrentTool (v : string) (s : State) : State :=
  {| messages := messages s; userMessage := userMessage s;
     developerMessage := developerMessage s; apiKey := apiKey s;
     tavilyApiKey := tavilyApiKey s; model := model s;
     isLoading := isLoading s; isStreaming := isStreaming s;
     isUploading := isUploading s; uploadedPDFs := uploadedPDFs s;
     selectedPDF := selectedPDF s;
     isPDFSectionCollapsed := isPDFSectionCollapsed s;
     isConfigSectionCollapsed := isConfigSectionCollapsed s;
     currentTool := v; isUsingTool := isUsingTool s |}.

Definition setIsUsingTool (v : bool) (s : State) : State :=
  {| messages := messages s; userMessage := userMessage s;
     developerMessage := developerMessage s; apiKey := apiKey s;
     tavilyApiKey := tavilyApiKey s; model := model s;
     isLoading := isLoading s; isStreaming := isStreaming s;
     isUploading := isUploading s; uploadedPDFs := uploadedPDFs s;
     selectedPDF := selectedPDF s;
     isPDFSectionCollapsed := isPDFSectionCollapsed s;
     isConfigSectionCollapsed := isConfigSectionCollapsed s;
     currentTool := currentTool s; isUsingTool := v |}.

(** The state of the first render; the two keys come from the environment
    ([DEFAULT_OPENAI_API_KEY], [DEFAULT_TAVILY_API_KEY]). *)
Definition initialState (openaiKey tavilyKey : string) : State :=
  {| messages := []; userMessage := ""; developerMessage := "";
     apiKey := openaiKey; tavilyApiKey := tavilyKey; model := "gpt-4o-mini";
     isLoading := false; isStreaming := false; isUploading := false;
     uploadedPDFs := []; selectedPDF := "";
     isPDFSectionCollapsed := false; isConfigSectionCollapsed := false;
     currentTool := ""; isUsingTool := false |}.

(** ** What a handler asks of its surroundings *)

Inductive Effect :=
| Alert (text : string)
| Confirm (text : string)
| Fetch (url method : string) (body : list (string * string)).

(** ** Request building (the head of the [try] block of [handleSubmit]) *)

Definition defaultPDFSystemMessage : string :=
  "You are a helpful assistant that can answer questions about uploaded PDF documents and search the web for additional information when needed. Format your responses using markdown for better readability - use headers, bullet points, code blocks, and emphasis where appropriate.".

Definition defaultDeveloperMessage : string :=
  "You are a helpful AI assistant. Format your responses using markdown for better readability.".

Definition endpoint (r : State) : string :=
  if JS.truthy (selectedPDF r) then "/api/chat-pdf" else "/api/chat".

(** The object literal, as its fields in the order [JSON.stringify] writes
    them. *)
Definition requestBody (r : State) : list (string * string) :=
  if JS.truthy (selectedPDF r) then
    [ ("message", userMessage r);
      ("system_message", JS.or_else (developerMessage r) defaultPDFSystemMessage);
      ("model", model r);
      ("api_key", apiKey r);
      ("tavily_api_key", tavilyApiKey r);
      ("pdf_id", selectedPDF r) ]
  else
    [ ("developer_message", JS.or_else (developerMessage r) defaultDeveloperMessage);
      ("user_message", userMessage r);
      ("model", model r);
      ("api_key", apiKey r) ].

(** ** The streaming loop of [handleSubmit] *)

(** The updater given to [setMessages] for a chunk: [prev.map] with the
    index, [prev.length - 1] computed in the integers. *)
Definition showAssistantMessage (assistantMessage : string)
    (prev : list Message) : list Message :=
  imap (λ index msg,
          if bool_decide (Z.of_nat index = Z.of_nat (length prev) - 1)%Z
             && isAssistant (role msg)
          then {| role := role msg; content := assistantMessage;
                  timestamp := timestamp msg |}
          else msg) prev.

(** One turn of the [while] loop on a decoded chunk.  The loop carries the
    local [assistantMessage] and the store; [isUsingTool] is read from the
    render [r]. *)
Definition readChunk (r : State) (chunk : string)
    (l : string * State) : string * State :=
  let '(assistantMessage, s) := l in
  let append :=
    let s :=
      if JS.truthy (JS.trim chunk) && isUsingTool r
      then setCurrentTool "" (setIsUsingTool false s)
      else s in
    let assistantMessage := assistantMessage +:+ chunk in
    (assistantMessage, setMessages (showAssistantMessage assistantMessage) s) in
  if JS.includes Marker.SENTINEL chunk then
    match Marker.toolMatch chunk with
    | Some toolName =>
        (* continue *)
        (assistantMessage, setIsUsingTool true (setCurrentTool toolName s))
    | None => append
    end
  else append.

Definition readChunks (r : State) (chunks : list string)
    (l : string * State) : string * State :=
  fold_left (λ l chunk, readChunk r chunk l) chunks l.

(** What the loop makes of a chunk, as the event it amounts to: a chunk in
    which the expression matches only signals its tool, any other chunk is
    content. *)
Inductive StreamEvent :=
| Content (text : string)
| Tool (name : string).

Definition eventOf (chunk : string) : StreamEvent :=
  if JS.includes Marker.SENTINEL chunk then
    match Marker.toolMatch chunk with
    | Some toolName => Tool toolName
    | None => Content chunk
    end
  else Content chunk.

Definition events (chunks : list string) : list StreamEvent :=
  eventOf <$> chunks.

(** ** [handleSubmit] *)

(** How the request ends. *)
Inductive StreamEnd :=
| Done            (* [reader.read()] reports [done] *)
| ReadFails.      (* [reader.read()] rejects *)

Inductive ChatResponse :=
| FetchFails                                   (* [fetch] rejects *)
| NotOk                                        (* [response.ok] is false *)
| NoReader                                     (* [response.body] is null *)
| Stream (chunks : list string) (e : StreamEnd).

(** The three [new Date()] of the handler. *)
Record Clock := {
  userTime : Z;
  assistantTime : Z;
  errorTime : Z
}.

Definition tavilyRequired : string :=
  "Tavily API key is required for PDF chat with web search capabilities".

Definition apology : string :=
  "Sorry, there was an error processing your request.".

(** The [try] block behind the [fetch]: whether it threw, and the store. *)
Definition tryBlock (r : State) (now : Clock) (net : ChatResponse)
    (s : State) : bool * State :=
  match net with
  | FetchFails | NotOk | NoReader => (true, s)
  | Stream chunks e =>
      let newAssistantMessage :=
        {| role := assistant; content := ""; timestamp := assistantTime now |} in
      let s := setMessages (λ prev, prev ++ [newAssistantMessage]) s in
      let '(_, s) := readChunks r chunks ("", s) in
      match e with
      | Done => (false, s)
      | ReadFails => (true, s)
      end
  end.

Definition catchBlock (now : Clock) (s : State) : State :=
  setMessages
    (λ prev, prev ++ [ {| role := assistant; content := apology;
                          timestamp := errorTime now |} ]) s.

Definition finallyBlock (s : State) : State :=
  setCurrentTool "" (setIsUsingTool false (setIsStreaming false (setIsLoading false s))).

Definition handleSubmit (r : State) (now : Clock) (net : ChatResponse)
    (s : State) : State * list Effect :=
  if negb (JS.truthy (JS.trim (userMessage r)))
     || negb (JS.truthy (JS.trim (apiKey r)))
  then (s, [])
  else if JS.truthy (selectedPDF r) && negb (JS.truthy (JS.trim (tavilyApiKey r)))
  then (s, [Alert tavilyRequired])
  else
    let newUserMessage :=
      {| role := user; content := userMessage r; timestamp := userTime now |} in
    let s := setMessages (λ prev, prev ++ [newUserMessage]) s in
    let s := setUserMessage "" s in
    let s := setIsLoading true s in
    let s := setIsStreaming true s in
    let '(threw, s) := tryBlock r now net s in
    let s := if threw then catchBlock now s else s in
    (finallyBlock s, [Fetch (endpoint r) "POST" (requestBody r)]).

(** ** The document list *)

Inductive ListResponse :=
| ListFails                                    (* [fetch] or [json()] rejects *)
| ListNotOk                                    (* [response.ok] is false *)
| ListOk (pdfs : list UploadedPDF).

Definition loadUploadedPDFs (net : ListResponse) (s : State) : State * list Effect :=
  (match net with
   | ListOk pdfs => setUploadedPDFs pdfs s
   | ListNotOk | ListFails => s
   end,
   [Fetch "/api/pdfs" "GET" []]).

Inductive DeleteResponse :=
| DeleteFails                                  (* [fetch] rejects *)
| DeleteNotOk (detail : option string)         (* [None]: [json()] rejects *)
| DeleteOk.

Definition handleDeletePDF (r : State) (pdfId : string) (confirmed : bool)
    (del : DeleteResponse) (listing : ListResponse) (s : State) : State * list Effect :=
  let ask := Confirm "Are you sure you want to delete this PDF?" in
  if negb confirmed then (s, [ask])
  else
    let request := Fetch ("/api/pdfs/" +:+ pdfId) "DELETE" [] in
    match del with
    | DeleteOk =>
        let '(s, fx) := loadUploadedPDFs listing s in
        let s := if bool_decide (selectedPDF r = pdfId) then setSelectedPDF "" s else s in
        (s, [ask; request] ++ fx ++ [Alert "PDF deleted successfully"])
    | DeleteNotOk (Some detail) =>
        (s, [ask; request; Alert ("Delete failed: " +:+ detail)])
    | DeleteNotOk None | DeleteFails =>
        (s, [ask; request; Alert "Delete failed. Please try again."])
    end.

(** The selection, when there is one, names a document of the list. *)
Definition selectionResolves (s : State) : Prop :=
  selectedPDF s = "" ∨ ∃ pdf, pdf ∈ uploadedPDFs s ∧ pdf_id pdf = selectedPDF s.

(** [active == false ⇒ toolName == empty] *)
Definition toolInvariant (s : State) : Prop :=
  isUsingTool s = false → currentTool s = "".

(** ** Derived notions used in the statements *)

(** The two guards at the head of [handleSubmit] let the submission
    through. *)
Definition accepted (r : State) : bool :=
  JS.truthy (JS.trim (userMessage r))
  && JS.truthy (JS.trim (apiKey r))
  && negb (JS.truthy (selectedPDF r) && negb (JS.truthy (JS.trim (tavilyApiKey r)))).

(** The store after the four setters that open a turn. *)
Definition beginTurn (r : State) (now : Clock) (s : State) : State :=
  setIsStreaming true (setIsLoading true (setUserMessage ""
    (setMessages
       (λ prev, prev ++ [ {| role := user; content := userMessage r;
                             timestamp := userTime now |} ]) s))).

(** The store at the head of the [while] loop. *)
Definition loopStart (r : State) (now : Clock) (s : State) : State :=
  setMessages
    (λ prev, prev ++ [ {| role := assistant; content := "";
                          timestamp := assistantTime now |} ])
    (beginTurn r now s).

(** The text that the content chunks add up to. *)
Fixpoint contentOf (chunks : list string) : string :=
  match chunks with
  | [] => ""
  | chunk :: rest =>
      match eventOf chunk with
      | Content text => text +:+ contentOf rest
      | Tool _ => contentOf rest
      end
  end.

(** The request of the specification: a function of the user text, the
    document selection, the model, the system message and the two
    credentials.  The credentials and the document id travel as [api_key],
    [tavily_api_key] and [pdf_id]. *)
Definition buildRequest
    (userText documentSelection modelId systemMessage primary secondary : string)
    : Effect :=
  match documentSelection with
  | "" =>
      Fetch "/api/chat" "POST"
        [ ("developer_message",
           match systemMessage with
           | "" => defaultDeveloperMessage
           | _ => systemMessage
           end);
          ("user_message", userText);
          ("model", modelId);
          ("api_key", primary) ]
  | _ =>
      Fetch "/api/chat-pdf" "POST"
        [ ("message", userText);
          ("system_message",
           match systemMessage with
           | "" => defaultPDFSystemMessage
           | _ => systemMessage
           end);
          ("model", modelId);
          ("api_key", primary);
          ("tavily_api_key", secondary);
          ("pdf_id", documentSelection) ]
  end.

(** Some code unit of the text is not white space. *)
Fixpoint hasVisible (s : string) : bool :=
  match s with
  | "" => false
  | String c s' => negb (JS.isWhiteSpace c) || hasVisible s'
  end.

(** No code unit of the text is a line terminator. *)
Fixpoint oneLine (s : string) : bool :=
  match s with
  | "" => true
  | String c s' => negb (JS.isLineTerminator c) && oneLine s'
  end.

(** ** Concrete renders and documents of the examples *)

Definition typing (text pdf tavilyKey : string) : State :=
  setSelectedPDF pdf (setUserMessage text (initialState "sk-test" tavilyKey)).

Definition noon : Clock := {| userTime := 1; assistantTime := 2; errorTime := 3 |}.

(** A render with a question typed, no document selected, and the tool
    indicator off, as after every turn. *)
Definition asking : State := typing "Summarize the podcast" "" "".

Definition doc1 : UploadedPDF :=
  {| pdf_id := "doc-1"; filename := "tides.pdf"; chunks_count := 12 |}.

Definition withDocument (pdf : UploadedPDF) : State :=
  setSelectedPDF (pdf_id pdf) (setUploadedPDFs [pdf] (initialState "sk-test" "tvly-test")).

(** ** More of JavaScript's strings *)

Module Text.

(** [toLowerCase] on one code unit below 256: the letters A..Z and the
    capital letters of Latin-1 (192..222 without the multiplication sign)
    move up by 32. *)
Definition toLowerCaseUnit (c : ascii) : ascii :=
  let n := N_of_ascii c in
  if ((65 <=? n) && (n <=? 90)
      || (192 <=? n) && (n <=? 222) && negb (n =? 215))%N
  then ascii_of_N (n + 32)
  else c.

Fixpoint toLowerCase (s : string) : string :=
  match s with
  | "" => ""
  | String c s' => String (toLowerCaseUnit c) (toLowerCase s')
  end.

(** [s.endsWith(p)] *)
Fixpoint endsWith (p s : string) : bool :=
  String.eqb s p ||
  match s with
  | "" => false
  | String _ s' => endsWith p s'
  end.

(** The class [\w]: letters, digits and the underscore. *)
Definition isWordUnit (c : ascii) : bool :=
  let n := N_of_ascii c in
  ((48 <=? n) && (n <=? 57) || (65 <=? n) && (n <=? 90)
   || (97 <=? n) && (n <=? 122) || (n =? 95))%N.

(** The longest run of [\w] at the head of [s]. *)
Fixpoint takeWord (s : string) : string :=
  match s with
  | "" => ""
  | String c s' => if isWordUnit c then String c (takeWord s') else ""
  end.

End Text.

(** ** Uploading a document: [handleFileUpload] *)

Definition setIsUploading (v : bool) (s : State) : State :=
  {| messages := messages s; userMessage := userMessage s;
     developerMessage := developerMessage s; apiKey := apiKey s;
     tavilyApiKey := tavilyApiKey s; model := model s;
     isLoading := isLoading s; isStreaming := isStreaming s;
     isUploading := v; uploadedPDFs := uploadedPDFs s;
     selectedPDF := selectedPDF s;
     isPDFSectionCollapsed := isPDFSectionCollapsed s;
     isConfigSectionCollapsed := isConfigSectionCollapsed s;
     currentTool := currentTool s; isUsingTool := isUsingTool s |}.

Inductive UploadResponse :=
| UploadFails                                   (* [fetch] rejects *)
| UploadNotOk (detail : option string)          (* [None]: [json()] rejects *)
| UploadOk (result : option (string * string)). (* [pdf_id] and [message] *)

(** [file] is the name of [event.target.files?.[0]], when there is one. *)
Definition handleFileUpload (r : State) (file : option string)
    (up : UploadResponse) (listing : ListResponse) (s : State)
    : State * list Effect :=
  match file with
  | None => (s, [])
  | Some name =>
      if negb (JS.truthy (JS.trim (apiKey r)))
      then (s, [Alert "Please enter your OpenAI API key first"])
      else if negb (Text.endsWith ".pdf" (Text.toLowerCase name))
      then (s, [Alert "Please select a PDF file"])
      else
        let s := setIsUploading true s in
        let request :=
          Fetch "/api/upload-pdf" "POST" [("file", name); ("api_key", apiKey r)] in
        let '(s, fx) :=
          match up with
          | UploadOk (Some (pdfId, message)) =>
              let '(s, fx) := loadUploadedPDFs listing s in
              let s := setSelectedPDF pdfId s in
              (s, fx ++ [Alert ("PDF uploaded successfully! " +:+ message)])
          | UploadNotOk (Some detail) =>
              (s, [Alert ("Upload failed: " +:+ detail)])
          | UploadOk None | UploadNotOk None | UploadFails =>
              (s, [Alert "Upload failed. Please try again."])
          end in
        (* finally *)
        (setIsUploading false s, request :: fx)
  end.

(** ** [getSelectedPDFName] and the two indicators of the chat box *)

Definition getSelectedPDFName (r : State) : string :=
  match List.find (λ p, String.eqb (pdf_id p) (selectedPDF r)) (uploadedPDFs r) with
  | Some pdf => filename pdf
  | None => "None"
  end.

(** [isUsingTool && currentTool]: the card of the running tool. *)
Definition showsToolCard (r : State) : bool :=
  isUsingTool r && JS.truthy (currentTool r).

(** [isStreaming && !isUsingTool]: the three dots. *)
Definition showsTypingDots (r : State) : bool :=
  isStreaming r && negb (isUsingTool r).

(** ** The quick actions: [handleQuickAction] *)

(** The [handleSubmit] it awaits is the one of its own render. *)
Definition handleQuickAction (r : State) (message : string) (now : Clock)
    (net : ChatResponse) (s : State) : State * list Effect :=
  if isLoading r || negb (JS.truthy (selectedPDF r))
     || negb (JS.truthy (JS.trim (apiKey r)))
  then (s, [])
  else handleSubmit r now net (setUserMessage message s).

(** ** The page before the tool markers

    The other copy of the page in the tree has the same handlers and a loop
    that appends every chunk.  Its [Home] has no tool state and no
    collapsible sections; it is run here on the same store and leaves
    those four fields alone. *)

Module Earlier.

Definition readChunk (chunk : string) (l : string * State) : string * State :=
  let '(assistantMessage, s) := l in
  let assistantMessage := assistantMessage +:+ chunk in
  (assistantMessage, setMessages (showAssistantMessage assistantMessage) s).

Definition readChunks (chunks : list string) (l : string * State) : string * State :=
  fold_left (λ l chunk, readChunk chunk l) chunks l.

Definition tryBlock (now : Clock) (net : ChatResponse) (s : State) : bool * State :=
  match net with
  | FetchFails | NotOk | NoReader => (true, s)
  | Stream chunks e =>
      let newAssistantMessage :=
        {| role := assistant; content := ""; timestamp := assistantTime now |} in
      let s := setMessages (λ prev, prev ++ [newAssistantMessage]) s in
      let '(_, s) := readChunks chunks ("", s) in
      match e with
      | Done => (false, s)
      | ReadFails => (true, s)
      end
  end.

Definition finallyBlock (s : State) : State :=
  setIsStreaming false (setIsLoading false s).

Definition handleSubmit (r : State) (now : Clock) (net : ChatResponse)
    (s : State) : State * list Effect :=
  if negb (JS.truthy (JS.trim (userMessage r)))
     || negb (JS.truthy (JS.trim (apiKey r)))
  then (s, [])
  else if JS.truthy (selectedPDF r) && negb (JS.truthy (JS.trim (tavilyApiKey r)))
  then (s, [Alert tavilyRequired])
  else
    let newUserMessage :=
      {| role := user; content := userMessage r; timestamp := userTime now |} in
    let s := setMessages (λ prev, prev ++ [newUserMessage]) s in
    let s := setUserMessage "" s in
    let s := setIsLoading true s in
    let s := setIsStreaming true s in
    let '(threw, s) := tryBlock now net s in
    let s := if threw then catchBlock now s else s in
    (finallyBlock s, [Fetch (endpoint r) "POST" (requestBody r)]).

End Earlier.

(** ** Code in the rendered markdown: the [code] component *)

Module Markdown.

(** [/language-(\w+)/.exec(className)]: the group of the leftmost match. *)
Fixpoint languageOf (className : string) : option string :=
  match
    match JS.literal "language-" className with
    | Some rest =>
        match Text.takeWord rest with
        | "" => None
        | language => Some language
        end
    | None => None
    end
  with
  | Some language => Some language
  | None =>
      match className with
      | "" => None
      | String _ className' => languageOf className'
      end
  end.

(** [text.replace(/\n$/, '')]: a line feed at the very end goes. *)
Fixpoint stripFinalNewline (text : string) : string :=
  match text with
  | "" => ""
  | String c rest =>
      match rest with
      | "" => if Ascii.eqb c "010" then "" else text
      | String _ _ => String c (stripFinalNewline rest)
      end
  end.

Inductive Rendered :=
| Highlighted (language text : string)
| InlineCode (children : string).

(** [className] may be absent; [children] is taken as its text. *)
Definition code (inline : bool) (className : option string) (children : string)
    : Rendered :=
  match languageOf (JS.or_else (default "" className) "") with
  | Some language =>
      if negb inline then Highlighted language (stripFinalNewline children)
      else InlineCode children
  | None => InlineCode children
  end.

End Markdown.

(** ** The API routes of the front end

    Each route forwards a request of the page to the back end and answers
    with [NextResponse.json] or with a [Response] of its own.  The back
    end is an input; numbers in its JSON are kept abstract, with the two
    things the code can see of them: whether they are zero, and their
    text. *)

Module Route.

#[warnings="-register-all"] Inductive JSON (Number : Type) : Type :=
| JNull
| JBool (b : bool)
| JNumber (n : Number)
| JString (s : string)
| JArray (items : list (JSON Number))
| JObject (fields : list (string * JSON Number)).

Arguments JNull {Number}.
Arguments JBool {Number} b.
Arguments JNumber {Number} n.
Arguments JString {Number} s.
Arguments JArray {Number} items.
Arguments JObject {Number} fields.

(** [ToBoolean]; [None] is [undefined]. *)
Definition truthy {Number} (isZero : Number → bool)
    (v : option (JSON Number)) : bool :=
  match v with
  | None | Some JNull => false
  | Some (JBool b) => b
  | Some (JNumber n) => negb (isZero n)
  | Some (JString s) => JS.truthy s
  | Some (JArray _) | Some (JObject _) => true
  end.

Fixpoint lookupField {Number} (key : string) (fields : list (string * JSON Number))
    : option (JSON Number) :=
  match fields with
  | [] => None
  | (k, v) :: rest => if String.eqb k key then Some v else lookupField key rest
  end.

(** Reading a property either throws or gives a value or [undefined]. *)
Inductive Access (Number : Type) : Type :=
| Throws
| Value (v : option (JSON Number)).

Arguments Throws {Number}.
Arguments Value {Number} v.

(** [v.detail]: a [TypeError] on [null], the field of an object, and
    [undefined] on everything else. *)
Definition detailOf {Number} (v : JSON Number) : Access Number :=
  match v with
  | JNull => Throws
  | JObject fields => Value (lookupField "detail" fields)
  | JBool _ | JNumber _ | JString _ | JArray _ => Value None
  end.

(** [ToString], as a template literal applies it. *)
Fixpoint toString {Number} (show : Number → string) (v : JSON Number) : string :=
  match v with
  | JNull => "null"
  | JBool true => "true"
  | JBool false => "false"
  | JNumber n => show n
  | JString s => s
  | JArray items =>
      String.concat ","
        (List.map (λ item, match item with
                           | JNull => ""
                           | _ => toString show item
                           end) items)
  | JObject _ => "[object Object]"
  end.

Definition template {Number} (show : Number → string)
    (v : option (JSON Number)) : string :=
  match v with
  | None => "undefined"
  | Some v => toString show v
  end.

(** What [fetch] brings from the back end; [body] is [None] when
    [response.json()] rejects. *)
Inductive Backend (Number : Type) : Type :=
| BackendFails
| BackendAnswers (status : Z) (body : option (JSON Number)).

Arguments BackendFails {Number}.
Arguments BackendAnswers {Number} status body.

Record Reply (Number : Type) : Type := {
  replyStatus : Z;
  replyBody : JSON Number
}.

Arguments Build_Reply {Number}.
Arguments replyStatus {Number}.
Arguments replyBody {Number}.

Definition DEFAULT_BACKEND_URL : string := "http://127.0.0.1:8000".

(** [process.env.BACKEND_URL || DEFAULT_BACKEND_URL] *)
Definition backendUrl (env : option string) : string :=
  JS.or_else (default "" env) DEFAULT_BACKEND_URL.

(** [response.ok] *)
Definition isOk (status : Z) : bool :=
  ((200 <=? status) && (status <=? 299))%Z.

(** A [Response] with a body cannot be built with a status outside
    200..599 (a [RangeError]) nor with a null body status (a
    [TypeError]). *)
Definition constructible (status : Z) : bool :=
  ((200 <=? status) && (status <=? 599)
   && negb ((status =? 101) || (status =? 103) || (status =? 204)
            || (status =? 205) || (status =? 304)))%Z.

(** [NextResponse.json({ error: message }, { status })] *)
Definition failure {Number} (status : Z) (message : JSON Number) : Reply Number :=
  {| replyStatus := status; replyBody := JObject [("error", message)] |}.

(** The branch [!response.ok] of the upload and delete routes, inside their
    [try]: [{ error: error.detail || fallback }] with the status of the
    back end, and the answer of the [catch] when that throws. *)
Definition errorReply {Number} (isZero : Number → bool)
    (fallback caught : string) (status : Z) (error : JSON Number)
    : Reply Number :=
  match detailOf error with
  | Throws => failure 500 (JString caught)
  | Value detail =>
      let message :=
        match detail with
        | Some d => if truthy isZero (Some d) then d else JString fallback
        | None => JString fallback
        end in
      if constructible status then failure status message
      else failure 500 (JString caught)
  end.

(** [DELETE /api/pdfs/[pdfId]] *)
Definition deletePDF {Number} (isZero : Number → bool) (env : option string)
    (pdfId : string) (backend : Backend Number) : Reply Number * list Effect :=
  let request := Fetch (backendUrl env +:+ "/api/pdfs/" +:+ pdfId) "DELETE" [] in
  let caught := failure 500 (JString "Failed to delete PDF") in
  (match backend with
   | BackendFails => caught
   | BackendAnswers status None => caught
   | BackendAnswers status (Some body) =>
       if isOk status
       then {| replyStatus := 200; replyBody := body |}
       else errorReply isZero "Delete failed" "Failed to delete PDF" status body
   end,
   [request]).

(** [POST /api/upload-pdf]; [form] is [None] when [request.formData()]
    rejects. *)
Definition uploadPDF {Number} (isZero : Number → bool) (env : option string)
    (form : option (list (string * string))) (backend : Backend Number)
    : Reply Number * list Effect :=
  let caught := failure 500 (JString "Failed to process upload request") in
  match form with
  | None => (caught, [])
  | Some formData =>
      (match backend with
       | BackendFails => caught
       | BackendAnswers status None => caught
       | BackendAnswers status (Some body) =>
           if isOk status
           then {| replyStatus := 200; replyBody := body |}
           else errorReply isZero "Upload failed" "Failed to process upload request"
                  status body
       end,
       [Fetch (backendUrl env +:+ "/api/upload-pdf") "POST" formData])
  end.


(** [POST /api/chat-pdf]: the body of the back end is handed on as it
    streams. *)
Inductive ChatBackend :=
| ChatBackendFails
| ChatBackendAnswers (status : Z) (chunks : list string) (e : StreamEnd).

(** [Refused] is the answer of the [catch]:
    [{ error: 'Failed to process request' }] with status 500. *)
Inductive ChatReply :=
| Piped (chunks : list string) (e : StreamEnd)
| Refused.

Definition chatPDF (env : option string)
    (body : option (list (string * string))) (backend : ChatBackend)
    : ChatReply * list Effect :=
  match body with
  | None => (Refused, [])
  | Some fields =>
      (match backend with
       | ChatBackendFails => Refused
       | ChatBackendAnswers status chunks e =>
           if isOk status then Piped chunks e else Refused
       end,
       [Fetch (backendUrl env +:+ "/api/chat-pdf") "POST" fields])
  end.

(** What the page reads of a reply that is not ok: [`${error.detail}`],
    or nothing when reading it throws.  The body is the value given to
    [NextResponse.json]; on its way through JSON text it keeps its fields,
    and the text of its values in a template. *)
Definition detailSeen {Number} (show : Number → string) (reply : Reply Number)
    : option string :=
  match detailOf (replyBody reply) with
  | Throws => None
  | Value detail => Some (template show detail)
  end.

(** What [fetch('/api/chat-pdf')] gives the page. *)
Definition chatSeen (reply : ChatReply) : ChatResponse :=
  match reply with
  | Piped chunks e => Stream chunks e
  | Refused => NotOk
  end.

End Route.

(** ** Derived notions for the further properties *)

(** The fields that the chat never writes: the settings, the documents and
    the upload flag. *)
Definition outsideChat (s : State) :=
  (developerMessage s, apiKey s, tavilyApiKey s, model s, isUploading s,
   uploadedPDFs s, selectedPDF s, isPDFSectionCollapsed s,
   isConfigSectionCollapsed s).

(** The fields that the document handlers never write. *)
Definition outsideDocuments (s : State) :=
  (messages s, userMessage s, developerMessage s, apiKey s, tavilyApiKey s,
   model s, isLoading s, isStreaming s, isPDFSectionCollapsed s,
   isConfigSectionCollapsed s, currentTool s, isUsingTool s).

(** The messages that a turn adds behind the user message, by the way the
    request ends. *)
Definition answerOf (now : Clock) (net : ChatResponse) : list Message :=
  let sorry :=
    {| role := assistant; content := apology; timestamp := errorTime now |} in
  match net with
  | FetchFails | NotOk | NoReader => [sorry]
  | Stream chunks e =>
      {| role := assistant; content := contentOf chunks;
         timestamp := assistantTime now |}
      :: match e with
         | Done => []
         | ReadFails => [sorry]
         end
  end.

(** A tool that is shown has a name. *)
Definition namedWhenActive (s : State) : Prop :=
  isUsingTool s = true → currentTool s ≠ "".

(** A marker as it is written around a tool name. *)
Definition marker (toolName : string) : string :=
  Marker.SENTINEL +:+ toolName +:+ Marker.SENTINEL.

(** The chunks of a response, if it has any. *)
Definition chunksOf (net : ChatResponse) : list string :=
  match net with
  | Stream chunks _ => chunks
  | FetchFails | NotOk | NoReader => []
  end.

(** The store without what the tool markers brought. *)
Definition eraseTool (s : State) : State :=
  setCurrentTool "" (setIsUsingTool false s).

(** A response none of whose chunks holds a complete marker. *)
Definition markerFree (net : ChatResponse) : Prop :=
  Forall (λ chunk, Marker.toolMatch chunk = None) (chunksOf net).

(** The upload goes out: a file is chosen, the key is not blank and the
    name ends in [.pdf] once in lower case. *)
Definition uploadable (r : State) (file : option string) : bool :=
  match file with
  | None => false
  | Some name =>
      hasVisible (apiKey r) && Text.endsWith ".pdf" (Text.toLowerCase name)
  end.

(** Every code unit is of the class [\w]. *)
Fixpoint allWord (s : string) : bool :=
  match s with
  | "" => true
  | String c s' => Text.isWordUnit c && allWord s'
  end.

(** The text does not go on with a code unit of the class [\w]. *)
Definition wordEnds (rest : string) : bool :=
  match rest with
  | "" => true
  | String c _ => negb (Text.isWordUnit c)
  end.

(** The line feed. *)
Definition LF : string := String "010" "".

(** The tool of the last chunk in which the expression matched, if there
    was one. *)
Definition lastTool (chunks : list string) : option string :=
  fold_left (λ found chunk,
               match eventOf chunk with
               | Tool toolName => Some toolName
               | Content _ => found
               end) chunks None.

(** ** The page as a whole: one action of the user after the other *)

(** The setters behind the inputs of the settings panel and the two
    collapse buttons. *)
Definition setDeveloperMessage (v : string) (s : State) : State :=
  {| messages := messages s;
     userMessage := userMessage s;
     developerMessage := v;
     apiKey := apiKey s;
     tavilyApiKey := tavilyApiKey s;
     model := model s;
     isLoading := isLoading s;
     isStreaming := isStreaming s;
     isUploading := isUploading s;
     uploadedPDFs := uploadedPDFs s;
     selectedPDF := selectedPDF s;
     isPDFSectionCollapsed := isPDFSectionCollapsed s;
     isConfigSectionCollapsed := isConfigSectionCollapsed s;
     currentTool := currentTool s;
     isUsingTool := isUsingTool s |}.

Definition setApiKey (v : string) (s : State) : State :=
  {| messages := messages s;
     userMessage := userMessage s;
     developerMessage := developerMessage s;
     apiKey := v;
     tavilyApiKey := tavilyApiKey s;
     model := model s;
     isLoading := isLoading s;
     isStreaming := isStreaming s;
     isUploading := isUploading s;
     uploadedPDFs := uploadedPDFs s;
     selectedPDF := selectedPDF s;
     isPDFSectionCollapsed := isPDFSectionCollapsed s;
     isConfigSectionCollapsed := isConfigSectionCollapsed s;
     currentTool := currentTool s;
     isUsingTool := isUsingTool s |}.

Definition setTavilyApiKey (v : string) (s : State) : State :=
  {| messages := messages s;
     userMessage := userMessage s;
     developerMessage := developerMessage s;
     apiKey := apiKey s;
     tavilyApiKey := v;
     model := model s;
     isLoading := isLoading s;
     isStreaming := isStreaming s;
     isUploading := isUploading s;
     uploadedPDFs := uploadedPDFs s;
     selectedPDF := selectedPDF s;
     isPDFSectionCollapsed := isPDFSectionCollapsed s;
     isConfigSectionCollapsed := isConfigSectionCollapsed s;
     currentTool := currentTool s;
     isUsingTool := isUsingTool s |}.

Definition setModel (v : string) (s : State) : State :=
  {| messages := messages s;
     userMessage := userMessage s;
     developerMessage := developerMessage s;
     apiKey := apiKey s;
     tavilyApiKey := tavilyApiKey s;
     model := v;
     isLoading := isLoading s;
     isStreaming := isStreaming s;
     isUploading := isUploading s;
     uploadedPDFs := uploadedPDFs s;
     selectedPDF := selectedPDF s;
     isPDFSectionCollapsed := isPDFSectionCollapsed s;
     isConfigSectionCollapsed := isConfigSectionCollapsed s;
     currentTool := currentTool s;
     isUsingTool := isUsingTool s |}.

Definition setIsPDFSectionCollapsed (v : bool) (s : State) : State :=
  {| messages := messages s;
     userMessage := userMessage s;
     developerMessage := developerMessage s;
     apiKey := apiKey s;
     tavilyApiKey := tavilyApiKey s;
     model := model s;
     isLoading := isLoading s;
     isStreaming := isStreaming s;
     isUploading := isUploading s;
     uploadedPDFs := uploadedPDFs s;
     selectedPDF := selectedPDF s;
     isPDFSectionCollapsed := v;
     isConfigSectionCollapsed := isConfigSectionCollapsed s;
     currentTool := currentTool s;
     isUsingTool := isUsingTool s |}.

Definition setIsConfigSectionCollapsed (v : bool) (s : State) : State :=
  {| messages := messages s;
     userMessage := userMessage s;
     developerMessage := developerMessage s;
     apiKey := apiKey s;
     tavilyApiKey := tavilyApiKey s;
     model := model s;
     isLoading := isLoading s;
     isStreaming := isStreaming s;
     isUploading := isUploading s;
     uploadedPDFs := uploadedPDFs s;
     selectedPDF := selectedPDF s;
     isPDFSectionCollapsed := isPDFSectionCollapsed s;
     isConfigSectionCollapsed := v;
     currentTool := currentTool s;
     isUsingTool := isUsingTool s |}.

(** What the user, or the mount of the component, can set off; the
    answers of the back end travel with the action. *)
Inductive Action :=
| Mount (listing : ListResponse)
| TypeMessage (text : string)
| TypeSystemMessage (text : string)
| TypeApiKey (text : string)
| TypeTavilyKey (text : string)
| ChooseModel (name : string)
| SelectPDF (pdfId : string)
| TogglePDFSection
| ToggleConfigSection
| Submit (now : Clock) (net : ChatResponse)
| QuickAction (message : string) (now : Clock) (net : ChatResponse)
| UploadFile (file : option string) (up : UploadResponse) (listing : ListResponse)
| DeletePDF (pdfId : string) (confirmed : bool) (del : DeleteResponse)
    (listing : ListResponse).

(** One action, run to its end on the page as it is rendered: the render
    of the handler is the store. *)
Definition perform (a : Action) (s : State) : State :=
  match a with
  | Mount listing => (loadUploadedPDFs listing s).1
  | TypeMessage text => setUserMessage text s
  | TypeSystemMessage text => setDeveloperMessage text s
  | TypeApiKey text => setApiKey text s
  | TypeTavilyKey text => setTavilyApiKey text s
  | ChooseModel name => setModel name s
  | SelectPDF pdfId => setSelectedPDF pdfId s
  | TogglePDFSection => setIsPDFSectionCollapsed (negb (isPDFSectionCollapsed s)) s
  | ToggleConfigSection =>
      setIsConfigSectionCollapsed (negb (isConfigSectionCollapsed s)) s
  | Submit now net => (handleSubmit s now net s).1
  | QuickAction message now net => (handleQuickAction s message now net s).1
  | UploadFile file up listing => (handleFileUpload s file up listing s).1
  | DeletePDF pdfId confirmed del listing =>
      (handleDeletePDF s pdfId confirmed del listing s).1
  end.

Definition session (actions : list Action) (s : State) : State :=
  fold_left (λ s a, perform a s) actions s.

(** Nothing is in flight and no tool is shown. *)
Definition atRest (s : State) : Prop :=
  isLoading s = false ∧ isStreaming s = false ∧ isUploading s = false ∧
  isUsingTool s = false ∧ currentTool s = "".

(** * Properties *)

Example trim_ex : JS.trim "  a b
 " = "a b".
Proof. reflexivity. Qed.

Example toolMatch_ex1 :
  Marker.toolMatch "x__TOOL_USAGE__search__TOOL_USAGE__y__TOOL_USAGE__" = Some "search".
Proof. reflexivity. Qed.

Example toolMatch_ex2 : Marker.toolMatch "__TOOL_USAGE____TOOL_USAGE__" = None.
Proof. reflexivity. Qed.

Example toolMatch_ex3 :
  Marker.toolMatch "__TOOL_USAGE____TOOL_USAGE__a__TOOL_USAGE__" = Some "__TOOL_USAGE__a".
Proof. reflexivity. Qed.

(** The group does not cross a line terminator. *)
Example toolMatch_ex4 :
  Marker.toolMatch ("__TOOL_USAGE__a" +:+ String "010" "b__TOOL_USAGE__") = None.
Proof. reflexivity. Qed.

(** The group is the shortest one. *)
Example toolMatch_ex5 :
  Marker.toolMatch "__TOOL_USAGE__a__TOOL_USAGE__b__TOOL_USAGE__" = Some "a".
Proof. reflexivity. Qed.

Example includes_ex :
  JS.includes Marker.SENTINEL "__TOOL_USAGE__search__TOOL" = true ∧
  JS.includes Marker.SENTINEL "_USAGE__" = false.
Proof. split; reflexivity. Qed.

(** ** Strings *)

Lemma string_app_nil_r (a : string) : a +:+ "" = a.
Proof. induction a as [| c a IH]; [reflexivity |]. change (String c (a +:+ "") = String c a). by rewrite IH. Qed.

Lemma string_app_assoc (a b c : string) : (a +:+ b) +:+ c = a +:+ (b +:+ c).
Proof.
  induction a as [| x a IH]; [reflexivity |].
  change (String x ((a +:+ b) +:+ c) = String x (a +:+ (b +:+ c))). by rewrite IH.
Qed.

Lemma string_app_cons (x : ascii) (a b : string) :
  String x a +:+ b = String x (a +:+ b).
Proof. reflexivity. Qed.

(** [s.trim()] is truthy exactly when [s] has a code unit that is not white
    space. *)
Lemma trimStart_visible s : hasVisible (JS.trimStart s) = hasVisible s.
Proof.
  induction s as [| c s IH]; [reflexivity |]. simpl.
  destruct (JS.isWhiteSpace c) eqn:Hc; [exact IH |].
  simpl. by rewrite Hc.
Qed.

Lemma trimEnd_truthy s : JS.truthy (JS.trimEnd s) = hasVisible s.
Proof.
  induction s as [| c s IH]; [reflexivity |]. simpl.
  destruct (JS.trimEnd s); rewrite <- IH; simpl.
  - destruct (JS.isWhiteSpace c); reflexivity.
  - by rewrite orb_true_r.
Qed.

Lemma trim_truthy s : JS.truthy (JS.trim s) = hasVisible s.
Proof. unfold JS.trim. by rewrite trimEnd_truthy, trimStart_visible. Qed.

Lemma hasVisible_app a b : hasVisible (a +:+ b) = hasVisible a || hasVisible b.
Proof.
  induction a as [| c a IH]; [reflexivity |].
  rewrite string_app_cons. simpl. by rewrite IH, orb_assoc.
Qed.

(** ** Chunks with a complete marker *)

Lemma toolMatch_unfold chunk :
  Marker.toolMatch chunk =
  match Marker.matchHere chunk with
  | Some toolName => Some toolName
  | None =>
      match chunk with
      | "" => None
      | String _ chunk' => Marker.toolMatch chunk'
      end
  end.
Proof. destruct chunk; reflexivity. Qed.

Lemma includes_unfold p s :
  JS.includes p s =
  JS.startsWith p s || match s with
                       | "" => false
                       | String _ s' => JS.includes p s'
                       end.
Proof. destruct s; reflexivity. Qed.

Lemma matchHere_startsWith s toolName :
  Marker.matchHere s = Some toolName → JS.startsWith Marker.SENTINEL s = true.
Proof.
  unfold Marker.matchHere, JS.startsWith.
  destruct (JS.literal Marker.SENTINEL s); [reflexivity | discriminate].
Qed.

(** The test [chunk.includes('__TOOL_USAGE__')] never hides a match. *)
Lemma toolMatch_includes chunk toolName :
  Marker.toolMatch chunk = Some toolName →
  JS.includes Marker.SENTINEL chunk = true.
Proof.
  induction chunk as [| c chunk IH]; rewrite toolMatch_unfold, includes_unfold.
  - destruct (Marker.matchHere "") eqn:Hm; [| discriminate].
    intros _. by rewrite (matchHere_startsWith _ _ Hm).
  - destruct (Marker.matchHere (String c chunk)) eqn:Hm.
    + intros _. by rewrite (matchHere_startsWith _ _ Hm).
    + intros H. rewrite (IH H). apply orb_true_r.
Qed.

(** ** The matcher against the shape of a marker *)

Lemma literal_app p s : JS.literal p (p +:+ s) = Some s.
Proof.
  induction p as [| a p IH]; [reflexivity |].
  rewrite string_app_cons. simpl. by rewrite Ascii.eqb_refl.
Qed.

Lemma literal_Some p :
  ∀ s rest, JS.literal p s = Some rest → s = p +:+ rest.
Proof.
  induction p as [| a p IH]; intros s rest H.
  - simpl in H. by injection H as ->.
  - destruct s as [| b s]; [discriminate |]. simpl in H.
    destruct (Ascii.eqb a b) eqn:Hab; [| discriminate].
    apply Ascii.eqb_eq in Hab as ->.
    rewrite string_app_cons. f_equal. by apply IH.
Qed.

Lemma lazyGroup_unfold group rest :
  Marker.lazyGroup group rest =
  match JS.literal Marker.SENTINEL rest with
  | Some _ => Some group
  | None =>
      match rest with
      | "" => None
      | String c rest' =>
          if JS.isLineTerminator c then None
          else Marker.lazyGroup (group +:+ String c "") rest'
      end
  end.
Proof. destruct rest; reflexivity. Qed.

(** What the group has captured is on one line and is followed by the
    closing sentinel. *)
Lemma lazyGroup_sound rest :
  ∀ group toolName,
    Marker.lazyGroup group rest = Some toolName →
    ∃ more post,
      toolName = group +:+ more ∧
      rest = more +:+ Marker.SENTINEL +:+ post ∧
      oneLine more = true.
Proof.
  induction rest as [| c rest IH]; intros group toolName;
    rewrite lazyGroup_unfold.
  - destruct (JS.literal Marker.SENTINEL "") eqn:Hlit; discriminate.
  - destruct (JS.literal Marker.SENTINEL (String c rest)) as [post |] eqn:Hlit.
    + intros [= <-]. exists "", post. rewrite string_app_nil_r.
      split; [reflexivity |]. split; [| reflexivity].
      exact (literal_Some _ _ _ Hlit).
    + destruct (JS.isLineTerminator c) eqn:Hc; [discriminate |].
      intros H. apply IH in H as (more & post & -> & -> & Hline).
      exists (String c more), post. rewrite string_app_assoc.
      split; [reflexivity |]. split; [reflexivity |].
      simpl. by rewrite Hc.
Qed.

Lemma matchHere_sound s toolName :
  Marker.matchHere s = Some toolName →
  ∃ post,
    s = Marker.SENTINEL +:+ toolName +:+ Marker.SENTINEL +:+ post ∧
    toolName ≠ "" ∧ oneLine toolName = true.
Proof.
  unfold Marker.matchHere.
  destruct (JS.literal Marker.SENTINEL s) as [[| c rest] |] eqn:Hlit;
    try discriminate.
  destruct (JS.isLineTerminator c) eqn:Hc; [discriminate |].
  intros H. apply lazyGroup_sound in H as (more & post & -> & -> & Hline).
  exists post. split; [exact (literal_Some _ _ _ Hlit) |].
  split; [discriminate |]. simpl. by rewrite Hc.
Qed.

(** A match is a sentinel, a non-empty name on one line, and a sentinel,
    somewhere in the chunk. *)
Lemma toolMatch_sound chunk toolName :
  Marker.toolMatch chunk = Some toolName →
  ∃ pre post,
    chunk = pre +:+ Marker.SENTINEL +:+ toolName +:+ Marker.SENTINEL +:+ post ∧
    toolName ≠ "" ∧ oneLine toolName = true.
Proof.
  induction chunk as [| c chunk IH]; rewrite toolMatch_unfold.
  - destruct (Marker.matchHere "") eqn:Hm; [| discriminate].
    intros [= <-]. apply matchHere_sound in Hm as (post & Hs & Hname).
    by exists "", post.
  - destruct (Marker.matchHere (String c chunk)) eqn:Hm.
    + intros [= <-]. apply matchHere_sound in Hm as (post & Hs & Hname).
      by exists "", post.
    + intros H. apply IH in H as (pre & post & -> & Hname).
      by exists (String c pre), post.
Qed.

Lemma lazyGroup_complete name post :
  ∀ group,
    oneLine name = true →
    ∃ found, Marker.lazyGroup group (name +:+ Marker.SENTINEL +:+ post) = Some found.
Proof.
  induction name as [| c name IH]; intros group Hline; rewrite lazyGroup_unfold.
  - change ("" +:+ Marker.SENTINEL +:+ post) with (Marker.SENTINEL +:+ post).
    rewrite literal_app. by exists group.
  - rewrite string_app_cons.
    destruct (JS.literal Marker.SENTINEL (String c (name +:+ Marker.SENTINEL +:+ post)));
      [by exists group |].
    simpl in Hline. apply andb_prop in Hline as [Hc Hline].
    apply negb_true_iff in Hc. rewrite Hc. by apply IH.
Qed.

(** Whenever the chunk holds a sentinel, a non-empty name on one line and
    a sentinel, the expression matches somewhere in it. *)
Lemma toolMatch_complete pre name post :
  name ≠ "" →
  oneLine name = true →
  ∃ found,
    Marker.toolMatch (pre +:+ Marker.SENTINEL +:+ name +:+ Marker.SENTINEL +:+ post)
    = Some found.
Proof.
  intros Hne Hline.
  assert (∃ found,
            Marker.matchHere (Marker.SENTINEL +:+ name +:+ Marker.SENTINEL +:+ post)
            = Some found) as [found Hhere].
  { unfold Marker.matchHere. rewrite literal_app.
    destruct name as [| c name]; [done |]. rewrite string_app_cons.
    simpl in Hline. apply andb_prop in Hline as [Hc Hline].
    apply negb_true_iff in Hc. rewrite Hc. by apply lazyGroup_complete. }
  induction pre as [| c pre IH]; rewrite toolMatch_unfold.
  - change ("" +:+ Marker.SENTINEL +:+ name +:+ Marker.SENTINEL +:+ post)
      with (Marker.SENTINEL +:+ name +:+ Marker.SENTINEL +:+ post).
    rewrite Hhere. by exists found.
  - rewrite string_app_cons.
    destruct (Marker.matchHere (String c _)) as [early |]; [by exists early |].
    exact IH.
Qed.

(** ** Setters and projections *)

Lemma messages_setMessages f s : messages (setMessages f s) = f (messages s).
Proof. reflexivity. Qed.

(** Two stores with the same fields are the same store. *)
Lemma State_eq (s1 s2 : State) :
  messages s1 = messages s2 →
  userMessage s1 = userMessage s2 →
  developerMessage s1 = developerMessage s2 →
  apiKey s1 = apiKey s2 →
  tavilyApiKey s1 = tavilyApiKey s2 →
  model s1 = model s2 →
  isLoading s1 = isLoading s2 →
  isStreaming s1 = isStreaming s2 →
  isUploading s1 = isUploading s2 →
  uploadedPDFs s1 = uploadedPDFs s2 →
  selectedPDF s1 = selectedPDF s2 →
  isPDFSectionCollapsed s1 = isPDFSectionCollapsed s2 →
  isConfigSectionCollapsed s1 = isConfigSectionCollapsed s2 →
  currentTool s1 = currentTool s2 →
  isUsingTool s1 = isUsingTool s2 →
  s1 = s2.
Proof. destruct s1, s2. simpl. intros. by subst. Qed.

(** ** The updater of a chunk *)

Lemma showAssistantMessage_length am prev :
  length (showAssistantMessage am prev) = length prev.
Proof. unfold showAssistantMessage. apply length_imap. Qed.

Lemma showAssistantMessage_lookup am prev i :
  showAssistantMessage am prev !! i =
  (λ msg, if bool_decide (Z.of_nat i = Z.of_nat (length prev) - 1)%Z
             && isAssistant (role msg)
          then {| role := role msg; content := am; timestamp := timestamp msg |}
          else msg) <$> prev !! i.
Proof. unfold showAssistantMessage. apply list_lookup_imap. Qed.

Lemma showAssistantMessage_frame am prev i msg :
  prev !! i = Some msg →
  S i < length prev ∨ role msg = user →
  showAssistantMessage am prev !! i = Some msg.
Proof.
  intros Hi Hframe. rewrite showAssistantMessage_lookup, Hi. simpl.
  destruct Hframe as [Hlt | Hrole].
  - rewrite bool_decide_eq_false_2 by lia. reflexivity.
  - rewrite Hrole. rewrite andb_false_r. reflexivity.
Qed.

Lemma showAssistantMessage_last am base msg :
  role msg = assistant →
  showAssistantMessage am (base ++ [msg]) =
  base ++ [ {| role := assistant; content := am; timestamp := timestamp msg |} ].
Proof.
  intros Hrole. apply list_eq. intros i.
  rewrite showAssistantMessage_lookup, length_app. simpl.
  destruct (decide (i < length base)) as [Hlt | Hge].
  - rewrite !lookup_app_l by done.
    destruct (base !! i) as [m |] eqn:Hm; [| done]. simpl.
    rewrite bool_decide_eq_false_2 by lia. reflexivity.
  - rewrite !lookup_app_r by lia.
    destruct (i - length base) as [| k] eqn:Hk; simpl; [| done].
    rewrite bool_decide_eq_true_2 by lia. rewrite Hrole. reflexivity.
Qed.

(** ** The loop *)

(** The three ways through the body of the loop: the expression matches,
    the sentinel is there without a match, the sentinel is not there. *)
Ltac chunk_cases chunk :=
  destruct (JS.includes Marker.SENTINEL chunk);
  [destruct (Marker.toolMatch chunk) |].

Lemma readChunk_tool r chunk toolName am s :
  Marker.toolMatch chunk = Some toolName →
  JS.includes Marker.SENTINEL chunk = true →
  readChunk r chunk (am, s) =
  (am, setIsUsingTool true (setCurrentTool toolName s)).
Proof. intros Hm Hi. unfold readChunk. rewrite Hi, Hm. reflexivity. Qed.

Lemma readChunk_messages r chunk am s :
  messages (readChunk r chunk (am, s)).2 = messages s ∨
  messages (readChunk r chunk (am, s)).2 =
    showAssistantMessage (am +:+ chunk) (messages s).
Proof.
  unfold readChunk.
  chunk_cases chunk; simpl; auto;
    destruct (JS.truthy (JS.trim chunk) && isUsingTool r); simpl; auto.
Qed.

Lemma readChunk_toolInvariant r chunk l :
  toolInvariant l.2 → toolInvariant (readChunk r chunk l).2.
Proof.
  destruct l as [am s]. unfold toolInvariant, readChunk. simpl. intros Hinv.
  chunk_cases chunk; simpl; try discriminate;
    destruct (JS.truthy (JS.trim chunk) && isUsingTool r); simpl; auto.
Qed.

Lemma readChunks_toolInvariant r chunks l :
  toolInvariant l.2 → toolInvariant (readChunks r chunks l).2.
Proof.
  revert l. induction chunks as [| chunk chunks IH]; intros l Hinv; simpl.
  - exact Hinv.
  - apply IH. apply readChunk_toolInvariant. exact Hinv.
Qed.

(** A chunk in which the expression matches is skipped whole: the tool is
    signalled and nothing of the chunk reaches [assistantMessage] or the
    transcript. *)
Lemma readChunk_marker r chunk toolName am s :
  Marker.toolMatch chunk = Some toolName →
  readChunk r chunk (am, s) =
  (am, setIsUsingTool true (setCurrentTool toolName s)).
Proof.
  intros Hm. apply readChunk_tool; [exact Hm |].
  exact (toolMatch_includes _ _ Hm).
Qed.

(** Whatever surrounds a marker in its fragment goes with it: the fragment
    adds nothing to [assistantMessage] and leaves the transcript alone. *)
Lemma fragment_with_marker_is_skipped r pre name post am s :
  name ≠ "" →
  oneLine name = true →
  ∃ toolName,
    readChunk r (pre +:+ Marker.SENTINEL +:+ name +:+ Marker.SENTINEL +:+ post) (am, s)
    = (am, setIsUsingTool true (setCurrentTool toolName s)).
Proof.
  intros Hne Hline.
  destruct (toolMatch_complete pre name post Hne Hline) as [found Hfound].
  exists found. by apply readChunk_marker.
Qed.

(** ** Submissions that pass the two guards *)

Lemma handleSubmit_accepted r now net s :
  accepted r = true →
  handleSubmit r now net s =
  (finallyBlock
     (let '(threw, s') := tryBlock r now net (beginTurn r now s) in
      if threw then catchBlock now s' else s'),
   [Fetch (endpoint r) "POST" (requestBody r)]).
Proof.
  unfold accepted, handleSubmit, beginTurn. intros H.
  apply andb_prop in H as [H Hpdf]. apply andb_prop in H as [Hu Hk].
  rewrite Hu, Hk. simpl.
  apply negb_true_iff in Hpdf. rewrite Hpdf.
  destruct (tryBlock _ _ _ _) as [threw s']. reflexivity.
Qed.

Lemma finallyBlock_idle s :
  isUsingTool (finallyBlock s) = false ∧ currentTool (finallyBlock s) = "".
Proof. split; reflexivity. Qed.

(** ** The loop, event by event *)

Lemma readChunk_event r chunk am s :
  readChunk r chunk (am, s) =
  match eventOf chunk with
  | Tool toolName => (am, setIsUsingTool true (setCurrentTool toolName s))
  | Content text =>
      (am +:+ text,
       setMessages (showAssistantMessage (am +:+ text))
         (if JS.truthy (JS.trim text) && isUsingTool r
          then setCurrentTool "" (setIsUsingTool false s) else s))
  end.
Proof.
  unfold readChunk, eventOf. chunk_cases chunk; reflexivity.
Qed.

Lemma contentOf_app front back :
  contentOf (front ++ back) = contentOf front +:+ contentOf back.
Proof.
  induction front as [| chunk front IH]; [reflexivity |]. simpl.
  destruct (eventOf chunk); [| exact IH].
  by rewrite IH, string_app_assoc.
Qed.

Lemma readChunks_transcript r chunks :
  ∀ am s base t,
    messages s = base ++ [ {| role := assistant; content := am; timestamp := t |} ] →
    (readChunks r chunks (am, s)).1 = am +:+ contentOf chunks ∧
    messages (readChunks r chunks (am, s)).2 =
      base ++ [ {| role := assistant; content := am +:+ contentOf chunks;
                   timestamp := t |} ].
Proof.
  induction chunks as [| chunk chunks IH]; intros am s base t Hs.
  - simpl. rewrite string_app_nil_r. by split.
  - change (readChunks r (chunk :: chunks) (am, s))
      with (readChunks r chunks (readChunk r chunk (am, s))).
    rewrite readChunk_event. simpl contentOf.
    destruct (eventOf chunk) as [text | toolName].
    + rewrite <- string_app_assoc. apply IH.
      rewrite messages_setMessages.
      replace (messages (if JS.truthy (JS.trim text) && isUsingTool r
                         then setCurrentTool "" (setIsUsingTool false s) else s))
        with (messages s) by (by destruct (_ && _)).
      rewrite Hs. by apply showAssistantMessage_last.
    + apply IH. exact Hs.
Qed.

Lemma handleSubmit_stream_done r now chunks s :
  accepted r = true →
  messages (handleSubmit r now (Stream chunks Done) s).1 =
  messages s ++
  [ {| role := user; content := userMessage r; timestamp := userTime now |};
    {| role := assistant; content := contentOf chunks;
       timestamp := assistantTime now |} ].
Proof.
  intros Hacc. rewrite handleSubmit_accepted by exact Hacc.
  unfold tryBlock. fold (loopStart r now s).
  destruct (readChunks_transcript r chunks "" (loopStart r now s)
              (messages s ++ [ {| role := user; content := userMessage r;
                                  timestamp := userTime now |} ])
              (assistantTime now) eq_refl) as [_ Hmsgs].
  destruct (readChunks r chunks ("", loopStart r now s)) as [am s'].
  simpl in *. rewrite Hmsgs. by rewrite <- app_assoc.
Qed.

(** ** Text without a sentinel

    Where no sentinel is involved the loop does not depend on the fragment
    boundary: one fragment or its two halves end in the same local text and
    the same store. *)

Lemma literal_app_l p :
  ∀ a rest b, JS.literal p a = Some rest → JS.literal p (a +:+ b) = Some (rest +:+ b).
Proof.
  induction p as [| x p IH]; intros a rest b H.
  - simpl in H. by injection H as ->.
  - destruct a as [| y a]; [discriminate |]. rewrite string_app_cons.
    simpl in *. destruct (Ascii.eqb x y); [by apply IH | discriminate].
Qed.

Lemma includes_app_l p a b :
  JS.includes p a = true → JS.includes p (a +:+ b) = true.
Proof.
  induction a as [| x a IH]; rewrite includes_unfold.
  - rewrite orb_false_r. unfold JS.startsWith.
    destruct (JS.literal p "") eqn:Hlit; [| discriminate]. intros _.
    rewrite includes_unfold. unfold JS.startsWith.
    by rewrite (literal_app_l _ _ _ b Hlit).
  - intros H. rewrite string_app_cons, includes_unfold.
    apply orb_prop in H as [H | H].
    + unfold JS.startsWith in *.
      destruct (JS.literal p (String x a)) eqn:Hlit; [| discriminate].
      change (String x (a +:+ b)) with (String x a +:+ b).
      by rewrite (literal_app_l _ _ _ b Hlit).
    + rewrite (IH H). apply orb_true_r.
Qed.

Lemma includes_app_r p a b :
  JS.includes p b = true → JS.includes p (a +:+ b) = true.
Proof.
  intros H. induction a as [| x a IH]; [exact H |].
  rewrite string_app_cons, includes_unfold, IH. apply orb_true_r.
Qed.

Lemma sentinel_free_parts a b :
  JS.includes Marker.SENTINEL (a +:+ b) = false →
  JS.includes Marker.SENTINEL a = false ∧ JS.includes Marker.SENTINEL b = false.
Proof.
  intros H. split.
  - destruct (JS.includes Marker.SENTINEL a) eqn:Ha; [| reflexivity].
    by rewrite (includes_app_l _ _ b Ha) in H.
  - destruct (JS.includes Marker.SENTINEL b) eqn:Hb; [| reflexivity].
    by rewrite (includes_app_r _ a _ Hb) in H.
Qed.

Lemma eventOf_plain chunk :
  JS.includes Marker.SENTINEL chunk = false → eventOf chunk = Content chunk.
Proof. intros H. unfold eventOf. by rewrite H. Qed.

Lemma showAssistantMessage_twice am1 am2 prev :
  showAssistantMessage am2 (showAssistantMessage am1 prev) =
  showAssistantMessage am2 prev.
Proof.
  apply list_eq. intros i.
  rewrite !showAssistantMessage_lookup, showAssistantMessage_length.
  destruct (prev !! i) as [msg |]; [| reflexivity]. simpl. f_equal.
  destruct (bool_decide _ && isAssistant (role msg)) eqn:Hlast; simpl;
    by rewrite Hlast.
Qed.

Lemma plain_text_boundary r c1 c2 am s :
  JS.includes Marker.SENTINEL (c1 +:+ c2) = false →
  readChunks r [c1; c2] (am, s) = readChunks r [c1 +:+ c2] (am, s).
Proof.
  intros H. destruct (sentinel_free_parts _ _ H) as [H1 H2].
  change (readChunk r c2 (readChunk r c1 (am, s)) = readChunk r (c1 +:+ c2) (am, s)).
  rewrite (readChunk_event r c1), (eventOf_plain _ H1).
  rewrite !readChunk_event, (eventOf_plain _ H), (eventOf_plain _ H2).
  rewrite !trim_truthy, hasVisible_app, string_app_assoc. f_equal.
  destruct (hasVisible c1), (hasVisible c2), (isUsingTool r); cbn [andb orb];
    apply State_eq; try reflexivity;
    exact (showAssistantMessage_twice _ _ _).
Qed.

(** ** The decoder on markers that do not arrive whole and alone *)

(** C1: the loop is not independent of the fragment boundary.  A marker
    fed whole signals its tool and adds no text; the same text cut inside
    the closing sentinel signals nothing and is added to the assistant
    message. *)
Theorem boundary_dependence :
  let l := ("", loopStart asking noon asking) in
  let whole := readChunks asking ["__TOOL_USAGE__search__TOOL_USAGE__"] l in
  let cut := readChunks asking ["__TOOL_USAGE__search__TOOL"; "_USAGE__"] l in
  "__TOOL_USAGE__search__TOOL" +:+ "_USAGE__" = "__TOOL_USAGE__search__TOOL_USAGE__" ∧
  (whole.1 = "" ∧ isUsingTool whole.2 = true ∧ currentTool whole.2 = "search") ∧
  (cut.1 = "__TOOL_USAGE__search__TOOL_USAGE__" ∧
   isUsingTool cut.2 = false ∧ currentTool cut.2 = "") ∧
  ¬ (∀ r c1 c2 l, Marker.toolMatch (c1 +:+ c2) ≠ None →
       readChunks r [c1; c2] l = readChunks r [c1 +:+ c2] l).
Proof.
  split; [reflexivity |]. split; [by repeat split |]. split; [by repeat split |].
  intros H.
  assert (Marker.toolMatch ("__TOOL_USAGE__search__TOOL" +:+ "_USAGE__") ≠ None)
    as Hmarker by discriminate.
  specialize (H asking "__TOOL_USAGE__search__TOOL" "_USAGE__"
                ("", loopStart asking noon asking) Hmarker).
  discriminate H.
Qed.

(** C2: on the four fragments the loop finds no marker.  Each fragment is
    content, the assistant message ends as the text with the marker in it,
    and the tool indicator is off after every fragment. *)
Theorem split_marker_scenario :
  let fragments := ["before "; "__TOOL_USAGE__search__TOOL"; "_USAGE__"; "after"] in
  events fragments =
    [ Content "before "; Content "__TOOL_USAGE__search__TOOL";
      Content "_USAGE__"; Content "after" ] ∧
  messages (handleSubmit asking noon (Stream fragments Done) asking).1 =
    [ {| role := user; content := "Summarize the podcast"; timestamp := 1 |};
      {| role := assistant;
         content := "before __TOOL_USAGE__search__TOOL_USAGE__after";
         timestamp := 2 |} ] ∧
  ∀ n, isUsingTool
         (readChunks asking (take n fragments) ("", loopStart asking noon asking)).2
       = false.
Proof.
  split; [reflexivity | split; [reflexivity |]].
  intros n. do 5 (destruct n as [| n]; [reflexivity |]). reflexivity.
Qed.

(** C3: a fragment with text around a complete marker is skipped whole.
    The tool is signalled, and neither the text before the marker nor the
    text behind it reaches the assistant message. *)
Theorem text_around_marker_is_dropped :
  let fragment := "before __TOOL_USAGE__search__TOOL_USAGE__after" in
  events [fragment] = [Tool "search"] ∧
  readChunk asking fragment ("", loopStart asking noon asking) =
    ("", setIsUsingTool true (setCurrentTool "search" (loopStart asking noon asking))) ∧
  messages (handleSubmit asking noon (Stream [fragment] Done) asking).1 =
    [ {| role := user; content := "Summarize the podcast"; timestamp := 1 |};
      {| role := assistant; content := ""; timestamp := 2 |} ].
Proof. repeat split. Qed.

(** ** An opening sentinel that is never closed *)

(** C4 as stated fails: the stream that ends behind
    ["__TOOL_USAGE__incomplete"] raises nothing, and that text is the
    assistant message. *)
Lemma unterminated_marker_raises_nothing :
  let net := Stream ["__TOOL_USAGE__incomplete"] Done in
  (tryBlock asking noon net (beginTurn asking noon asking)).1 = false ∧
  messages (handleSubmit asking noon net asking).1 =
    [ {| role := user; content := "Summarize the podcast"; timestamp := 1 |};
      {| role := assistant; content := "__TOOL_USAGE__incomplete";
         timestamp := 2 |} ].
Proof. split; reflexivity. Qed.

(** C4, amended: when the stream ends behind a fragment that holds the
    sentinel but no complete marker, nothing is raised.  The turn ends as
    a normal completion: the only effect is the request, the transcript
    gains the user message and one assistant message and no failure
    notice, and the tool indicator is off. *)
Theorem unterminated_marker_raises_no_error r now front last s :
  accepted r = true →
  JS.includes Marker.SENTINEL last = true →
  Marker.toolMatch last = None →
  let net := Stream (front ++ [last]) Done in
  (tryBlock r now net (beginTurn r now s)).1 = false ∧
  (handleSubmit r now net s).2 = [Fetch (endpoint r) "POST" (requestBody r)] ∧
  isUsingTool (handleSubmit r now net s).1 = false ∧
  ∃ text,
    messages (handleSubmit r now net s).1 =
      messages s ++
      [ {| role := user; content := userMessage r; timestamp := userTime now |};
        {| role := assistant; content := text; timestamp := assistantTime now |} ].
Proof.
  intros Hacc _ _ net. repeat split.
  - unfold net, tryBlock. by destruct (readChunks _ _ _).
  - by rewrite handleSubmit_accepted.
  - rewrite handleSubmit_accepted by exact Hacc. apply finallyBlock_idle.
  - exists (contentOf (front ++ [last])). by apply handleSubmit_stream_done.
Qed.

Lemma unterminated_marker_raises_no_error_witness :
  let net := Stream (["So "] ++ ["__TOOL_USAGE__incomplete"]) Done in
  (tryBlock asking noon net (beginTurn asking noon asking)).1 = false ∧
  (handleSubmit asking noon net asking).2 =
    [Fetch (endpoint asking) "POST" (requestBody asking)] ∧
  isUsingTool (handleSubmit asking noon net asking).1 = false ∧
  ∃ text,
    messages (handleSubmit asking noon net asking).1 =
      messages asking ++
      [ {| role := user; content := userMessage asking; timestamp := userTime noon |};
        {| role := assistant; content := text; timestamp := assistantTime noon |} ].
Proof.
  apply (unterminated_marker_raises_no_error asking noon ["So "]
           "__TOOL_USAGE__incomplete" asking); reflexivity.
Defined.

(** ** Content while a tool is shown *)

(** The test [chunk.trim() && isUsingTool] reads the render.  In a turn
    started with the indicator off it is never true, whatever the chunks
    have set in the store since. *)
Lemma content_keeps_tool r chunk am s :
  isUsingTool r = false →
  eventOf chunk = Content chunk →
  isUsingTool (readChunk r chunk (am, s)).2 = isUsingTool s ∧
  currentTool (readChunk r chunk (am, s)).2 = currentTool s.
Proof.
  intros Hr Hev. rewrite readChunk_event, Hev, Hr, andb_false_r.
  split; reflexivity.
Qed.

(** White space alone never clears the indicator. *)
Lemma blank_content_keeps_tool r chunk am s :
  JS.trim chunk = "" →
  eventOf chunk = Content chunk →
  isUsingTool (readChunk r chunk (am, s)).2 = isUsingTool s ∧
  currentTool (readChunk r chunk (am, s)).2 = currentTool s.
Proof.
  intros Hblank Hev. rewrite readChunk_event, Hev, Hblank.
  split; reflexivity.
Qed.

(** C5: in a turn started from a render with the indicator off, the
    marker of [search] followed by the content ["Hello"] leaves the store
    with the tool still shown: the content does not bring it back to
    idle. *)
Theorem tool_survives_content :
  let l := ("", loopStart asking noon asking) in
  let after := readChunks asking ["__TOOL_USAGE__search__TOOL_USAGE__"; "Hello"] l in
  events ["__TOOL_USAGE__search__TOOL_USAGE__"; "Hello"] =
    [Tool "search"; Content "Hello"] ∧
  JS.truthy (JS.trim "Hello") = true ∧
  after.1 = "Hello" ∧
  isUsingTool after.2 = true ∧
  currentTool after.2 = "search".
Proof. repeat split. Qed.

(** ** The tool state at the end of a turn *)

(** C6: every accepted submission, whatever the response and however the
    stream ends, leaves [isUsingTool] false and [currentTool] empty; and
    [isUsingTool = false → currentTool = ""] is kept by every chunk of the
    loop and by the handler as a whole. *)
Theorem tool_idle_at_end_of_turn r now net s chunks am :
  toolInvariant s →
  (accepted r = true →
   isUsingTool (handleSubmit r now net s).1 = false ∧
   currentTool (handleSubmit r now net s).1 = "") ∧
  toolInvariant (readChunks r chunks (am, s)).2 ∧
  toolInvariant (handleSubmit r now net s).1.
Proof.
  intros Hinv. split; [| split].
  - intros Hacc. rewrite handleSubmit_accepted by exact Hacc.
    apply finallyBlock_idle.
  - apply (readChunks_toolInvariant r chunks (am, s)). exact Hinv.
  - destruct (accepted r) eqn:Hacc.
    + rewrite handleSubmit_accepted by exact Hacc.
      intros _. apply finallyBlock_idle.
    + unfold handleSubmit.
      destruct (negb (JS.truthy (JS.trim (userMessage r)))
                || negb (JS.truthy (JS.trim (apiKey r)))) eqn:Hg1;
        [exact Hinv |].
      destruct (JS.truthy (selectedPDF r)
                && negb (JS.truthy (JS.trim (tavilyApiKey r)))) eqn:Hg2;
        [exact Hinv |].
      unfold accepted in Hacc. apply orb_false_elim in Hg1 as [Hu Hk].
      apply negb_false_iff in Hu, Hk. rewrite Hu, Hk, Hg2 in Hacc.
      discriminate Hacc.
Qed.

Lemma tool_idle_at_end_of_turn_witness :
  let r := typing "Summarize the podcast" "" "" in
  let fragments := ["__TOOL_USAGE__podcast_summary_tool__TOOL_USAGE__"; "It is about"] in
  (accepted r = true →
   isUsingTool (handleSubmit r noon (Stream fragments ReadFails) r).1 = false ∧
   currentTool (handleSubmit r noon (Stream fragments ReadFails) r).1 = "") ∧
  toolInvariant (readChunks r fragments ("", r)).2 ∧
  toolInvariant (handleSubmit r noon (Stream fragments ReadFails) r).1.
Proof.
  intros r fragments.
  apply (tool_idle_at_end_of_turn r noon (Stream fragments ReadFails) r fragments "").
  intros _. reflexivity.
Defined.

(** ** The guard on the search credential *)

(** C7 as stated fails: with a document selected and no search credential,
    a submission whose text is blank is dropped by the first guard, without
    the alert. *)
Lemma config_alert_not_for_every_submission :
  ¬ (∀ r now net s,
       JS.truthy (selectedPDF r) = true →
       JS.trim (tavilyApiKey r) = "" →
       handleSubmit r now net s = (s, [Alert tavilyRequired])).
Proof.
  intros H.
  specialize (H (typing "" "doc-1" "") noon NotOk (typing "" "doc-1" "")
                eq_refl eq_refl).
  discriminate H.
Qed.

(** C7, amended: with a document selected and the search credential blank,
    a submission leaves the whole store as it was and issues no request;
    it raises the alert when the user text and the primary credential are
    both non-blank, and is dropped silently otherwise. *)
Theorem handleSubmit_missing_search_credential r now net s :
  JS.truthy (selectedPDF r) = true →
  JS.trim (tavilyApiKey r) = "" →
  handleSubmit r now net s =
  (s, if JS.truthy (JS.trim (userMessage r)) && JS.truthy (JS.trim (apiKey r))
      then [Alert tavilyRequired] else []).
Proof.
  intros Hpdf Hkey. unfold handleSubmit. rewrite Hpdf, Hkey. simpl.
  destruct (JS.truthy (JS.trim (userMessage r))),
           (JS.truthy (JS.trim (apiKey r))); reflexivity.
Qed.

Lemma handleSubmit_missing_search_credential_witness :
  handleSubmit (typing "What is said about tides?" "doc-1" "  ") noon
    (Stream ["never read"] Done) (typing "What is said about tides?" "doc-1" "  ") =
  (typing "What is said about tides?" "doc-1" "  ", [Alert tavilyRequired]).
Proof.
  apply (handleSubmit_missing_search_credential
           (typing "What is said about tides?" "doc-1" "  ")).
  - reflexivity.
  - reflexivity.
Defined.

(** ** Request building *)

(** C8: an accepted submission issues exactly one request, and that request
    is [buildRequest] of the user text, the selection, the model, the
    system message and the credentials of the render: the document
    endpoint with its six fields when a document is selected, the plain
    endpoint with its four fields otherwise.  Neither the store, the clock
    nor the response has a part in it. *)
Theorem handleSubmit_request r now net s :
  accepted r = true →
  (handleSubmit r now net s).2 =
  [ buildRequest (userMessage r) (selectedPDF r) (model r)
      (developerMessage r) (apiKey r) (tavilyApiKey r) ].
Proof.
  intros Hacc. rewrite handleSubmit_accepted by exact Hacc. simpl.
  unfold endpoint, requestBody, buildRequest, JS.or_else.
  destruct (selectedPDF r), (developerMessage r); reflexivity.
Qed.

Lemma handleSubmit_request_witness :
  (handleSubmit (typing "What is said about tides?" "doc-1" "tvly-test") noon
     (Stream [] Done) (typing "What is said about tides?" "doc-1" "tvly-test")).2 =
  [ buildRequest "What is said about tides?" "doc-1" "gpt-4o-mini" ""
      "sk-test" "tvly-test" ].
Proof.
  apply (handleSubmit_request
           (typing "What is said about tides?" "doc-1" "tvly-test")).
  reflexivity.
Defined.

(** ** Removing a document *)

(** C9 as stated fails: the list after a removal is what the refresh
    brought, and when the refresh fails the removed document is still
    listed. *)
Lemma removed_document_may_stay_listed :
  ¬ (∀ r pdfId listing s,
       selectedPDF r = pdfId →
       let s' := (handleDeletePDF r pdfId true DeleteOk listing s).1 in
       selectedPDF s' = "" ∧ ∀ pdf, pdf ∈ uploadedPDFs s' → pdf_id pdf ≠ pdfId).
Proof.
  intros H.
  destruct (H (withDocument doc1) "doc-1" ListFails (withDocument doc1) eq_refl)
    as [_ Hgone].
  apply (Hgone doc1); [| reflexivity].
  simpl. apply list_elem_of_here.
Qed.

(** C9, amended: a removal that the back end acknowledges, of the document
    that is selected, clears the selection in the same operation, so the
    selection resolves afterwards; a removal of another document leaves
    the selection as it was.  The list afterwards is the refreshed listing
    when the refresh succeeds and the old list otherwise, hence without
    the removed id whenever the refreshed listing is without it. *)
Theorem handleDeletePDF_acknowledged r pdfId listing s :
  let s' := (handleDeletePDF r pdfId true DeleteOk listing s).1 in
  (selectedPDF r = pdfId → selectedPDF s' = "" ∧ selectionResolves s') ∧
  (selectedPDF r ≠ pdfId → selectedPDF s' = selectedPDF s) ∧
  uploadedPDFs s' =
    match listing with
    | ListOk pdfs => pdfs
    | ListNotOk | ListFails => uploadedPDFs s
    end.
Proof.
  unfold handleDeletePDF, loadUploadedPDFs. simpl.
  destruct (bool_decide_reflect (selectedPDF r = pdfId)) as [Hsel | Hsel].
  - split; [| split].
    + intros _. destruct listing; (split; [| left]; reflexivity).
    + intros Hne. by destruct Hne.
    + by destruct listing.
  - split; [| split].
    + intros Heq. by destruct Hsel.
    + intros _. by destruct listing.
    + by destruct listing.
Qed.

Lemma handleDeletePDF_acknowledged_witness :
  let s' := (handleDeletePDF (withDocument doc1) "doc-1" true DeleteOk
               (ListOk []) (withDocument doc1)).1 in
  selectedPDF s' = "" ∧ selectionResolves s' ∧ uploadedPDFs s' = [].
Proof.
  destruct (handleDeletePDF_acknowledged (withDocument doc1) "doc-1" (ListOk [])
              (withDocument doc1)) as [Hsel [_ Hlist]].
  destruct (Hsel eq_refl) as [Hempty Hres].
  exact (conj Hempty (conj Hres Hlist)).
Defined.

(** ** Frame of a chunk *)

(** C10: applying a chunk keeps the length of the transcript and leaves
    every message unchanged that is not the last one or whose role is
    [user]; so only a last message of role [assistant] can change. *)
Theorem readChunk_frame r chunk am s i msg :
  messages s !! i = Some msg →
  S i < length (messages s) ∨ role msg = user →
  length (messages (readChunk r chunk (am, s)).2) = length (messages s) ∧
  messages (readChunk r chunk (am, s)).2 !! i = Some msg.
Proof.
  intros Hi Hframe.
  destruct (readChunk_messages r chunk am s) as [-> | ->].
  - split; [reflexivity | exact Hi].
  - split; [apply showAssistantMessage_length |].
    apply showAssistantMessage_frame; assumption.
Qed.

Lemma readChunk_frame_witness :
  let s := setMessages
             (λ _, [ {| role := user; content := "hi"; timestamp := 1 |};
                     {| role := assistant; content := ""; timestamp := 2 |} ])
             (initialState "sk-test" "") in
  length (messages (readChunk s "Hello" ("", s)).2) = 2 ∧
  messages (readChunk s "Hello" ("", s)).2 !! 0 =
    Some {| role := user; content := "hi"; timestamp := 1 |}.
Proof.
  intros s.
  apply (readChunk_frame s "Hello" "" s 0
           {| role := user; content := "hi"; timestamp := 1 |}).
  - reflexivity.
  - left. simpl. lia.
Defined.

(** * Beyond the claims *)

(** ** What a submission needs, and what it leaves alone *)

Lemma accepted_visible r :
  accepted r =
  hasVisible (userMessage r) && hasVisible (apiKey r)
  && (negb (JS.truthy (selectedPDF r)) || hasVisible (tavilyApiKey r)).
Proof.
  unfold accepted. rewrite !trim_truthy.
  by destruct (JS.truthy (selectedPDF r)), (hasVisible (tavilyApiKey r)).
Qed.

Lemma handleSubmit_rejected r now net s :
  accepted r = false →
  (handleSubmit r now net s).1 = s ∧
  ((handleSubmit r now net s).2 = [] ∨
   (handleSubmit r now net s).2 = [Alert tavilyRequired]).
Proof.
  unfold accepted, handleSubmit. intros H.
  destruct (JS.truthy (JS.trim (userMessage r))); simpl in *; [| by auto].
  destruct (JS.truthy (JS.trim (apiKey r))); simpl in *; [| by auto].
  apply negb_false_iff in H. rewrite H. by auto.
Qed.

(** X1: a submission reaches the network exactly when the user text and the
    OpenAI key each have a character that is not white space and, with a
    document selected, the Tavily key has one too.  Then the request is the
    only effect; otherwise the store is left as it was and nothing is
    fetched. *)
Theorem submission_sent_iff r now net s :
  if hasVisible (userMessage r) && hasVisible (apiKey r)
     && (negb (JS.truthy (selectedPDF r)) || hasVisible (tavilyApiKey r))
  then (handleSubmit r now net s).2 = [Fetch (endpoint r) "POST" (requestBody r)]
  else (handleSubmit r now net s).1 = s ∧
       ∀ url method body, Fetch url method body ∉ (handleSubmit r now net s).2.
Proof.
  rewrite <- accepted_visible. destruct (accepted r) eqn:Hacc.
  - by rewrite handleSubmit_accepted.
  - destruct (handleSubmit_rejected r now net s Hacc) as [Hs [Hfx | Hfx]];
      (split; [exact Hs |]); rewrite Hfx; intros url method body Hin.
    + by apply elem_of_nil in Hin.
    + apply list_elem_of_singleton in Hin. discriminate Hin.
Qed.

Lemma readChunk_outsideChat r chunk l :
  outsideChat (readChunk r chunk l).2 = outsideChat l.2 ∧
  userMessage (readChunk r chunk l).2 = userMessage l.2 ∧
  isLoading (readChunk r chunk l).2 = isLoading l.2 ∧
  isStreaming (readChunk r chunk l).2 = isStreaming l.2.
Proof.
  destruct l as [am s]. unfold readChunk.
  chunk_cases chunk; simpl;
    try destruct (JS.truthy (JS.trim chunk) && isUsingTool r); by repeat split.
Qed.

Lemma readChunks_outsideChat r chunks :
  ∀ l,
    outsideChat (readChunks r chunks l).2 = outsideChat l.2 ∧
    userMessage (readChunks r chunks l).2 = userMessage l.2 ∧
    isLoading (readChunks r chunks l).2 = isLoading l.2 ∧
    isStreaming (readChunks r chunks l).2 = isStreaming l.2.
Proof.
  induction chunks as [| chunk chunks IH]; intros l; [done |].
  change (readChunks r (chunk :: chunks) l)
    with (readChunks r chunks (readChunk r chunk l)).
  destruct (IH (readChunk r chunk l)) as (-> & -> & -> & ->).
  apply readChunk_outsideChat.
Qed.

Lemma tryBlock_outsideChat r now net s :
  outsideChat (tryBlock r now net s).2 = outsideChat s ∧
  userMessage (tryBlock r now net s).2 = userMessage s ∧
  isLoading (tryBlock r now net s).2 = isLoading s ∧
  isStreaming (tryBlock r now net s).2 = isStreaming s.
Proof.
  destruct net as [| | | chunks e]; try done. unfold tryBlock.
  pose proof (readChunks_outsideChat r chunks
    ("", setMessages
           (λ prev, prev ++ [ {| role := assistant; content := "";
                                 timestamp := assistantTime now |} ]) s)) as H.
  destruct (readChunks r chunks _) as [am s']. by destruct e.
Qed.

(** X2: [handleSubmit] never writes the settings, the document list, the
    selection or the upload flag, whatever the response; and an accepted
    submission ends with the text box empty and both in-flight flags
    off. *)
Theorem handleSubmit_frame r now net s :
  outsideChat (handleSubmit r now net s).1 = outsideChat s ∧
  (accepted r = true →
   userMessage (handleSubmit r now net s).1 = "" ∧
   isLoading (handleSubmit r now net s).1 = false ∧
   isStreaming (handleSubmit r now net s).1 = false).
Proof.
  destruct (accepted r) eqn:Hacc.
  - rewrite handleSubmit_accepted by exact Hacc.
    destruct (tryBlock_outsideChat r now net (beginTurn r now s)) as (Ho & Hu & _).
    destruct (tryBlock r now net (beginTurn r now s)) as [[] s'];
      (split; [exact Ho | intros _; split; [exact Hu | by split]]).
  - destruct (handleSubmit_rejected r now net s Hacc) as [-> _]. by split.
Qed.

Lemma tryBlock_messages r now net s base :
  messages s = base →
  messages (let '(threw, s') := tryBlock r now net s in
            if threw then catchBlock now s' else s') =
  base ++ answerOf now net.
Proof.
  intros Hs. destruct net as [| | | chunks e]; simpl; try by rewrite Hs.
  destruct (readChunks_transcript r chunks ""
              (setMessages
                 (λ prev, prev ++ [ {| role := assistant; content := "";
                                       timestamp := assistantTime now |} ]) s)
              base (assistantTime now)) as [_ Hm].
  { simpl. by rewrite Hs. }
  destruct (readChunks r chunks _) as [am s'].
  change ("" +:+ contentOf chunks) with (contentOf chunks) in Hm. simpl in Hm.
  destruct e; simpl; rewrite Hm; [done |]. by rewrite <- app_assoc.
Qed.

(** X3: the transcript of a turn.  An accepted submission adds the user
    message and then: the apology alone when the request fails before the
    stream; one assistant message holding the content chunks in their
    order when the stream ends; that message followed by the apology when
    reading fails midway.  Nothing that was in the transcript changes. *)
Theorem handleSubmit_transcript r now net s :
  accepted r = true →
  messages (handleSubmit r now net s).1 =
  messages s ++
  {| role := user; content := userMessage r; timestamp := userTime now |}
  :: answerOf now net.
Proof.
  intros Hacc. rewrite handleSubmit_accepted by exact Hacc.
  pose proof (tryBlock_messages r now net (beginTurn r now s)
                (messages s ++ [ {| role := user; content := userMessage r;
                                    timestamp := userTime now |} ]) eq_refl) as H.
  rewrite <- app_assoc in H. exact H.
Qed.

Lemma handleSubmit_transcript_witness :
  messages (handleSubmit asking noon
              (Stream ["It is "; "__TOOL_USAGE__pdf_rag_tool__TOOL_USAGE__"; "about tides"]
                 ReadFails) asking).1 =
  [ {| role := user; content := "Summarize the podcast"; timestamp := 1 |};
    {| role := assistant; content := "It is about tides"; timestamp := 2 |};
    {| role := assistant; content := apology; timestamp := 3 |} ].
Proof.
  apply (handleSubmit_transcript asking noon
           (Stream ["It is "; "__TOOL_USAGE__pdf_rag_tool__TOOL_USAGE__"; "about tides"]
              ReadFails) asking).
  reflexivity.
Defined.

Lemma readChunks_app r front back l :
  readChunks r (front ++ back) l = readChunks r back (readChunks r front l).
Proof. unfold readChunks. apply fold_left_app. Qed.

(** X4: the assistant message only grows.  Whatever has been shown after
    some chunks is a prefix of what is shown after more chunks, and the
    text added is the content of the further chunks. *)
Theorem assistant_message_grows r front back am s base t :
  messages s = base ++ [ {| role := assistant; content := am; timestamp := t |} ] →
  ∃ shown,
    messages (readChunks r front (am, s)).2 =
      base ++ [ {| role := assistant; content := shown; timestamp := t |} ] ∧
    messages (readChunks r (front ++ back) (am, s)).2 =
      base ++ [ {| role := assistant; content := shown +:+ contentOf back;
                   timestamp := t |} ].
Proof.
  intros Hs.
  destruct (readChunks_transcript r front am s base t Hs) as [_ Hfront].
  destruct (readChunks_transcript r (front ++ back) am s base t Hs) as [_ Hall].
  exists (am +:+ contentOf front). split; [exact Hfront |].
  by rewrite Hall, contentOf_app, string_app_assoc.
Qed.

Lemma assistant_message_grows_witness :
  ∃ shown,
    messages (readChunks asking ["Hel"] ("", loopStart asking noon asking)).2 =
      [ {| role := user; content := "Summarize the podcast"; timestamp := 1 |} ]
      ++ [ {| role := assistant; content := shown; timestamp := 2 |} ] ∧
    messages (readChunks asking (["Hel"] ++ ["lo"; " you"])
                ("", loopStart asking noon asking)).2 =
      [ {| role := user; content := "Summarize the podcast"; timestamp := 1 |} ]
      ++ [ {| role := assistant; content := shown +:+ contentOf ["lo"; " you"];
              timestamp := 2 |} ].
Proof.
  apply (assistant_message_grows asking ["Hel"] ["lo"; " you"] ""
           (loopStart asking noon asking)
           [ {| role := user; content := "Summarize the podcast"; timestamp := 1 |} ] 2).
  reflexivity.
Defined.

(** ** The marker expression *)

(** X5: the expression finds a match in a chunk exactly when the chunk
    holds a sentinel, a non-empty name without line terminator and a
    sentinel; and the name it reports is such a name of the chunk. *)
Theorem toolMatch_characterised chunk :
  (∀ toolName,
     Marker.toolMatch chunk = Some toolName →
     ∃ pre post,
       chunk = pre +:+ Marker.SENTINEL +:+ toolName +:+ Marker.SENTINEL +:+ post ∧
       toolName ≠ "" ∧ oneLine toolName = true) ∧
  ((∃ found, Marker.toolMatch chunk = Some found) ↔
   ∃ pre name post,
     chunk = pre +:+ Marker.SENTINEL +:+ name +:+ Marker.SENTINEL +:+ post ∧
     name ≠ "" ∧ oneLine name = true).
Proof.
  split; [intros toolName; apply toolMatch_sound |]. split.
  - intros [found Hfound].
    destruct (toolMatch_sound _ _ Hfound) as (pre & post & H).
    by exists pre, found, post.
  - intros (pre & name & post & -> & Hne & Hline).
    by apply toolMatch_complete.
Qed.

Lemma literal_cons a p b s :
  JS.literal (String a p) (String b s) =
  if Ascii.eqb a b then JS.literal p s else None.
Proof. reflexivity. Qed.

(** The sentinel does not start on a unit of a name without two
    underscores in a row. *)
Lemma sentinel_not_in_name x name post :
  JS.includes "__" (String x name) = false →
  JS.literal Marker.SENTINEL (String x (name +:+ Marker.SENTINEL +:+ post)) = None.
Proof.
  intros H. rewrite includes_unfold in H. apply orb_false_elim in H as [H _].
  unfold JS.startsWith in H.
  change "__" with (String "_" (String "_" "")) in H.
  change Marker.SENTINEL with (String "_" (String "_" "TOOL_USAGE__")) at 1.
  rewrite literal_cons in *.
  destruct (Ascii.eqb "_" x); [| reflexivity].
  destruct name as [| y name]; [reflexivity |].
  rewrite string_app_cons, literal_cons. rewrite literal_cons in H.
  by destruct (Ascii.eqb "_" y).
Qed.

Lemma lazyGroup_exact name post :
  ∀ group,
    oneLine name = true →
    JS.includes "__" name = false →
    Marker.lazyGroup group (name +:+ Marker.SENTINEL +:+ post) = Some (group +:+ name).
Proof.
  induction name as [| x name IH]; intros group Hline Hunder;
    rewrite lazyGroup_unfold.
  - change ("" +:+ Marker.SENTINEL +:+ post) with (Marker.SENTINEL +:+ post).
    by rewrite literal_app, string_app_nil_r.
  - rewrite string_app_cons, (sentinel_not_in_name _ _ _ Hunder).
    simpl in Hline. apply andb_prop in Hline as [Hx Hline].
    apply negb_true_iff in Hx. rewrite Hx.
    rewrite includes_unfold in Hunder. apply orb_false_elim in Hunder as [_ Hunder].
    rewrite (IH _ Hline Hunder). by rewrite string_app_assoc.
Qed.

(** X6: a marker comes back as it was written.  For a name that is not
    empty, has no line terminator and no two underscores in a row (as
    [pdf_rag_tool]), the expression reports exactly that name on the
    marker, whatever follows it; and the loop, given the marker alone,
    shows that tool and adds no text. *)
Theorem marker_round_trip r toolName post am s :
  toolName ≠ "" →
  oneLine toolName = true →
  JS.includes "__" toolName = false →
  Marker.toolMatch (marker toolName +:+ post) = Some toolName ∧
  readChunk r (marker toolName) (am, s) =
    (am, setIsUsingTool true (setCurrentTool toolName s)).
Proof.
  intros Hne Hline Hunder.
  assert (∀ post', Marker.toolMatch (marker toolName +:+ post') = Some toolName)
    as Hmatch.
  { intros post'. unfold marker. rewrite !string_app_assoc, toolMatch_unfold.
    unfold Marker.matchHere. rewrite literal_app.
    destruct toolName as [| c name]; [done |]. rewrite string_app_cons.
    simpl in Hline. apply andb_prop in Hline as [Hc Hline].
    apply negb_true_iff in Hc. rewrite Hc.
    rewrite includes_unfold in Hunder. apply orb_false_elim in Hunder as [_ Hunder].
    by rewrite (lazyGroup_exact _ _ _ Hline Hunder). }
  split; [apply Hmatch |].
  apply readChunk_marker. rewrite <- (string_app_nil_r (marker toolName)).
  apply Hmatch.
Qed.

Lemma marker_round_trip_witness :
  Marker.toolMatch (marker "pdf_rag_tool" +:+ "Searching") = Some "pdf_rag_tool" ∧
  readChunk asking (marker "pdf_rag_tool") ("", asking) =
    ("", setIsUsingTool true (setCurrentTool "pdf_rag_tool" asking)).
Proof.
  apply (marker_round_trip asking "pdf_rag_tool" "Searching" "" asking).
  - discriminate.
  - reflexivity.
  - reflexivity.
Defined.

(** ** The two indicators of the chat box *)

Lemma readChunk_namedWhenActive r chunk l :
  namedWhenActive l.2 → namedWhenActive (readChunk r chunk l).2.
Proof.
  destruct l as [am s]. unfold namedWhenActive. intros Hs. simpl in Hs.
  rewrite readChunk_event. unfold eventOf.
  destruct (JS.includes Marker.SENTINEL chunk);
    [destruct (Marker.toolMatch chunk) as [toolName |] eqn:Hm |]; simpl.
  - intros _. by destruct (toolMatch_sound _ _ Hm) as (_ & _ & _ & Hne & _).
  - destruct (JS.truthy (JS.trim chunk) && isUsingTool r); simpl; [discriminate | exact Hs].
  - destruct (JS.truthy (JS.trim chunk) && isUsingTool r); simpl; [discriminate | exact Hs].
Qed.

Lemma readChunks_namedWhenActive r chunks :
  ∀ l, namedWhenActive l.2 → namedWhenActive (readChunks r chunks l).2.
Proof.
  induction chunks as [| chunk chunks IH]; intros l Hl; [exact Hl |].
  apply (IH (readChunk r chunk l)). by apply readChunk_namedWhenActive.
Qed.

(** X7: while the response streams, a render shows exactly one of the
    tool card and the three dots: never both, never neither.  This holds
    after every chunk of a turn started from a store in which a shown
    tool has a name. *)
Theorem one_indicator_while_streaming r now s chunks :
  namedWhenActive s →
  let s' := (readChunks r chunks ("", loopStart r now s)).2 in
  xorb (showsToolCard s') (showsTypingDots s') = true.
Proof.
  intros Hs s'.
  assert (namedWhenActive s') as Hnamed.
  { apply (readChunks_namedWhenActive r chunks ("", loopStart r now s)). exact Hs. }
  assert (isStreaming s' = true) as Hstream.
  { destruct (readChunks_outsideChat r chunks ("", loopStart r now s))
      as (_ & _ & _ & Hstream). exact Hstream. }
  unfold showsToolCard, showsTypingDots, namedWhenActive in *. rewrite Hstream.
  destruct (isUsingTool s'); [| reflexivity].
  destruct (currentTool s'); [by destruct Hnamed | reflexivity].
Qed.

Lemma one_indicator_while_streaming_witness :
  let s' := (readChunks asking [marker "pdf_rag_tool"; "It is"]
               ("", loopStart asking noon asking)).2 in
  xorb (showsToolCard s') (showsTypingDots s') = true.
Proof.
  apply (one_indicator_while_streaming asking noon asking
           [marker "pdf_rag_tool"; "It is"]).
  intros H. discriminate H.
Defined.

(** ** The page before and after the tool markers *)

Lemma eventOf_no_match chunk :
  Marker.toolMatch chunk = None → eventOf chunk = Content chunk.
Proof.
  intros H. unfold eventOf. rewrite H.
  by destruct (JS.includes Marker.SENTINEL chunk).
Qed.

Lemma readChunks_earlier r chunks :
  Forall (λ chunk, Marker.toolMatch chunk = None) chunks →
  ∀ am s,
    (let '(am', s') := readChunks r chunks (am, s) in (am', eraseTool s')) =
    Earlier.readChunks chunks (am, eraseTool s).
Proof.
  induction 1 as [| chunk chunks Hchunk _ IH]; intros am s; [reflexivity |].
  change (readChunks r (chunk :: chunks) (am, s))
    with (readChunks r chunks (readChunk r chunk (am, s))).
  rewrite readChunk_event, (eventOf_no_match _ Hchunk), IH.
  change (Earlier.readChunks (chunk :: chunks) (am, eraseTool s))
    with (Earlier.readChunks chunks (Earlier.readChunk chunk (am, eraseTool s))).
  by destruct (JS.truthy (JS.trim chunk) && isUsingTool r).
Qed.

Lemma earlier_readChunks_erase chunks :
  ∀ am s,
    Earlier.readChunks chunks (am, eraseTool s) =
    (let '(am', s') := Earlier.readChunks chunks (am, s) in (am', eraseTool s')).
Proof.
  induction chunks as [| chunk chunks IH]; intros am s; [reflexivity |].
  change (Earlier.readChunks (chunk :: chunks) (am, ?x))
    with (Earlier.readChunks chunks (Earlier.readChunk chunk (am, x))).
  unfold Earlier.readChunk. rewrite <- IH. reflexivity.
Qed.

Lemma earlier_handleSubmit_accepted r now net s :
  accepted r = true →
  Earlier.handleSubmit r now net s =
  (Earlier.finallyBlock
     (let '(threw, s') := Earlier.tryBlock now net (beginTurn r now s) in
      if threw then catchBlock now s' else s'),
   [Fetch (endpoint r) "POST" (requestBody r)]).
Proof.
  unfold accepted, Earlier.handleSubmit, beginTurn. intros H.
  apply andb_prop in H as [H Hpdf]. apply andb_prop in H as [Hu Hk].
  rewrite Hu, Hk. simpl.
  apply negb_true_iff in Hpdf. rewrite Hpdf.
  destruct (Earlier.tryBlock _ _ _) as [threw s']. reflexivity.
Qed.

Lemma earlier_handleSubmit_rejected r now net s :
  accepted r = false →
  Earlier.handleSubmit r now net s = handleSubmit r now net s.
Proof.
  unfold accepted, handleSubmit, Earlier.handleSubmit. intros H.
  destruct (JS.truthy (JS.trim (userMessage r))); simpl in *; [| done].
  destruct (JS.truthy (JS.trim (apiKey r))); simpl in *; [| done].
  apply negb_false_iff in H. by rewrite H.
Qed.

Lemma tryBlock_earlier r now net s :
  markerFree net →
  (tryBlock r now net s).1 = (Earlier.tryBlock now net s).1 ∧
  eraseTool (tryBlock r now net s).2 = eraseTool (Earlier.tryBlock now net s).2.
Proof.
  intros Hfree. destruct net as [| | | chunks e]; try done.
  unfold tryBlock, Earlier.tryBlock.
  pose proof (readChunks_earlier r chunks Hfree ""
                (setMessages
                   (λ prev, prev ++ [ {| role := assistant; content := "";
                                         timestamp := assistantTime now |} ]) s))
    as Hnew.
  rewrite earlier_readChunks_erase in Hnew.
  destruct (readChunks r chunks _) as [am1 s1].
  destruct (Earlier.readChunks chunks _) as [am2 s2].
  assert (eraseTool s1 = eraseTool s2) as Hs by congruence.
  by destruct e.
Qed.

(** X8: the tool markers changed nothing for a response without a
    complete marker.  On such a response the page and its earlier copy
    issue the same request and end in the same store, apart from the tool
    pair that the earlier copy does not have. *)
Theorem markers_changed_nothing_else r now net s :
  markerFree net →
  (handleSubmit r now net s).2 = (Earlier.handleSubmit r now net s).2 ∧
  eraseTool (handleSubmit r now net s).1 =
  eraseTool (Earlier.handleSubmit r now net s).1.
Proof.
  intros Hfree. destruct (accepted r) eqn:Hacc.
  - rewrite handleSubmit_accepted, earlier_handleSubmit_accepted by exact Hacc.
    split; [reflexivity |].
    destruct (tryBlock_earlier r now net (beginTurn r now s) Hfree) as [Hthrew Hs].
    destruct (tryBlock r now net (beginTurn r now s)) as [threw s1].
    destruct (Earlier.tryBlock now net (beginTurn r now s)) as [threw' s2].
    simpl in Hthrew, Hs. subst threw'. destruct threw.
    + change (Earlier.finallyBlock (catchBlock now (eraseTool s1)) =
              Earlier.finallyBlock (catchBlock now (eraseTool s2))).
      by rewrite Hs.
    + change (Earlier.finallyBlock (eraseTool s1) =
              Earlier.finallyBlock (eraseTool s2)).
      by rewrite Hs.
  - by rewrite earlier_handleSubmit_rejected.
Qed.

Lemma markers_changed_nothing_else_witness :
  let net := Stream ["It is "; "__TOOL_USAGE__"; "about tides"] Done in
  (handleSubmit asking noon net asking).2 =
    (Earlier.handleSubmit asking noon net asking).2 ∧
  eraseTool (handleSubmit asking noon net asking).1 =
  eraseTool (Earlier.handleSubmit asking noon net asking).1.
Proof.
  apply (markers_changed_nothing_else asking noon
           (Stream ["It is "; "__TOOL_USAGE__"; "about tides"] Done) asking).
  repeat constructor.
Defined.

(** ** The document handlers *)

(** X9: a removal that is declined, or that the back end does not
    acknowledge, leaves the whole store as it was and does not reload the
    list. *)
Theorem removal_not_acknowledged r pdfId confirmed del listing s :
  confirmed = false ∨ del ≠ DeleteOk →
  (handleDeletePDF r pdfId confirmed del listing s).1 = s ∧
  Fetch "/api/pdfs" "GET" [] ∉ (handleDeletePDF r pdfId confirmed del listing s).2.
Proof.
  intros H. unfold handleDeletePDF.
  destruct confirmed; simpl.
  - destruct H as [H | H]; [discriminate |].
    destruct del as [| [detail |] |]; try by destruct H.
    all: split; [reflexivity |]; intros Hin;
      repeat (apply elem_of_cons in Hin as [Hin | Hin]; [discriminate |]);
      by apply elem_of_nil in Hin.
  - split; [reflexivity |]. intros Hin.
    apply elem_of_cons in Hin as [Hin | Hin]; [discriminate |].
    by apply elem_of_nil in Hin.
Qed.

Lemma removal_not_acknowledged_witness :
  (handleDeletePDF (withDocument doc1) "doc-1" true (DeleteNotOk (Some "PDF not found"))
     (ListOk []) (withDocument doc1)).1 = withDocument doc1 ∧
  Fetch "/api/pdfs" "GET" [] ∉
    (handleDeletePDF (withDocument doc1) "doc-1" true (DeleteNotOk (Some "PDF not found"))
       (ListOk []) (withDocument doc1)).2.
Proof.
  apply (removal_not_acknowledged (withDocument doc1) "doc-1" true
           (DeleteNotOk (Some "PDF not found")) (ListOk []) (withDocument doc1)).
  right. discriminate.
Defined.

(** X10: neither the removal nor the upload of a document ever writes the
    transcript, the text box, the settings, the chat flags or the tool
    state, whatever the back end answers. *)
Theorem document_handlers_frame r pdfId confirmed del file up listing s :
  outsideDocuments (handleDeletePDF r pdfId confirmed del listing s).1
    = outsideDocuments s ∧
  outsideDocuments (handleFileUpload r file up listing s).1 = outsideDocuments s.
Proof.
  split.
  - unfold handleDeletePDF, loadUploadedPDFs.
    destruct confirmed; [| reflexivity]. simpl.
    destruct del as [| [detail |] |]; try reflexivity.
    destruct (bool_decide (selectedPDF r = pdfId)); by destruct listing.
  - unfold handleFileUpload, loadUploadedPDFs.
    destruct file as [name |]; [| reflexivity].
    destruct (negb (JS.truthy (JS.trim (apiKey r)))); [reflexivity |].
    destruct (negb (Text.endsWith ".pdf" (Text.toLowerCase name))); [reflexivity |].
    destruct up as [| [detail |] | [[pdf message] |]]; try reflexivity.
    by destruct listing.
Qed.

Lemma handleFileUpload_refused r file up listing s :
  uploadable r file = false →
  (handleFileUpload r file up listing s).1 = s ∧
  ∃ said, (handleFileUpload r file up listing s).2 = Alert <$> said.
Proof.
  unfold uploadable, handleFileUpload. destruct file as [name |].
  - rewrite <- trim_truthy.
    destruct (JS.truthy (JS.trim (apiKey r))); simpl.
    + intros ->. simpl. split; [reflexivity |].
      by exists ["Please select a PDF file"].
    + intros _. split; [reflexivity |].
      by exists ["Please enter your OpenAI API key first"].
  - intros _. split; [reflexivity |]. by exists [].
Qed.

Lemma handleFileUpload_sent r name up listing s :
  uploadable r (Some name) = true →
  ∃ fx,
    (handleFileUpload r (Some name) up listing s).2 =
    Fetch "/api/upload-pdf" "POST" [("file", name); ("api_key", apiKey r)] :: fx.
Proof.
  unfold uploadable, handleFileUpload. rewrite <- trim_truthy. intros H.
  apply andb_prop in H as [-> ->]. simpl.
  destruct up as [| [detail |] | [[pdf message] |]]; by eexists.
Qed.

(** X11: an upload reaches the network exactly when a file is chosen, the
    OpenAI key has a character that is not white space and the file name
    ends in [.pdf] in whatever letter case.  Then the first effect is the
    request with the file and the key; otherwise the store is left as it
    was and the only effects are alerts. *)
Theorem upload_sent_iff r file up listing s :
  match file with
  | Some name =>
      if hasVisible (apiKey r) && Text.endsWith ".pdf" (Text.toLowerCase name)
      then ∃ fx,
             (handleFileUpload r file up listing s).2 =
             Fetch "/api/upload-pdf" "POST" [("file", name); ("api_key", apiKey r)]
             :: fx
      else (handleFileUpload r file up listing s).1 = s ∧
           ∃ said, (handleFileUpload r file up listing s).2 = Alert <$> said
  | None => handleFileUpload r file up listing s = (s, [])
  end.
Proof.
  destruct file as [name |]; [| reflexivity].
  destruct (hasVisible (apiKey r) && Text.endsWith ".pdf" (Text.toLowerCase name))
    eqn:Hup.
  - by apply handleFileUpload_sent.
  - by apply handleFileUpload_refused.
Qed.

(** X12: an upload that the back end acknowledges reloads the list and
    selects the new document; the upload flag is off again.  The selection
    names a listed document whenever the reloaded list holds the new id;
    when the reload fails the list is the old one. *)
Theorem upload_selects_new_document r name pdfId message listing s :
  uploadable r (Some name) = true →
  let s' :=
    (handleFileUpload r (Some name) (UploadOk (Some (pdfId, message))) listing s).1 in
  selectedPDF s' = pdfId ∧
  isUploading s' = false ∧
  uploadedPDFs s' =
    match listing with
    | ListOk pdfs => pdfs
    | ListNotOk | ListFails => uploadedPDFs s
    end ∧
  (∀ pdf, pdf ∈ uploadedPDFs s' → pdf_id pdf = pdfId → selectionResolves s').
Proof.
  unfold uploadable, handleFileUpload, loadUploadedPDFs.
  rewrite <- trim_truthy. intros H. apply andb_prop in H as [-> ->]. simpl.
  repeat split; try by destruct listing.
  intros pdf Hin Hid. right. exists pdf. split; [exact Hin |].
  rewrite Hid. by destruct listing.
Qed.

Lemma upload_selects_new_document_witness :
  let s' :=
    (handleFileUpload asking (Some "Tides.PDF") (UploadOk (Some ("doc-1", "12 chunks")))
       (ListOk [doc1]) asking).1 in
  selectedPDF s' = "doc-1" ∧
  isUploading s' = false ∧
  uploadedPDFs s' = [doc1] ∧
  (∀ pdf, pdf ∈ uploadedPDFs s' → pdf_id pdf = "doc-1" → selectionResolves s').
Proof.
  apply (upload_selects_new_document asking "Tides.PDF" "doc-1" "12 chunks"
           (ListOk [doc1]) asking).
  reflexivity.
Defined.

(** X13: an upload that fails, in the request, in the status or in the
    body of the answer, changes nothing: the list and the selection are as
    before and the upload flag is off.  One alert reports it. *)
Theorem upload_failure_changes_nothing r name up listing s :
  uploadable r (Some name) = true →
  (∀ result, up ≠ UploadOk (Some result)) →
  (handleFileUpload r (Some name) up listing s).1 = setIsUploading false s ∧
  ∃ text,
    (handleFileUpload r (Some name) up listing s).2 =
    [ Fetch "/api/upload-pdf" "POST" [("file", name); ("api_key", apiKey r)];
      Alert text ].
Proof.
  unfold uploadable, handleFileUpload. rewrite <- trim_truthy.
  intros H Hup. apply andb_prop in H as [-> ->]. simpl.
  destruct up as [| [detail |] | [result |]]; try by (split; [| eexists]).
  by destruct (Hup result).
Qed.

Lemma upload_failure_changes_nothing_witness :
  (handleFileUpload asking (Some "tides.pdf") (UploadNotOk (Some "undefined"))
     (ListOk [doc1]) asking).1 = setIsUploading false asking ∧
  ∃ text,
    (handleFileUpload asking (Some "tides.pdf") (UploadNotOk (Some "undefined"))
       (ListOk [doc1]) asking).2 =
    [ Fetch "/api/upload-pdf" "POST" [("file", "tides.pdf"); ("api_key", apiKey asking)];
      Alert text ].
Proof.
  apply (upload_failure_changes_nothing asking "tides.pdf"
           (UploadNotOk (Some "undefined")) (ListOk [doc1]) asking).
  - reflexivity.
  - discriminate.
Defined.

(** ** The name of a PDF file *)

Lemma toLowerCase_app a b :
  Text.toLowerCase (a +:+ b) = Text.toLowerCase a +:+ Text.toLowerCase b.
Proof.
  induction a as [| c a IH]; [reflexivity |].
  rewrite string_app_cons. simpl. by rewrite IH.
Qed.

Lemma endsWith_unfold p s :
  Text.endsWith p s =
  String.eqb s p || match s with
                    | "" => false
                    | String _ s' => Text.endsWith p s'
                    end.
Proof. destruct s; reflexivity. Qed.

Lemma endsWith_app p a : Text.endsWith p (a +:+ p) = true.
Proof.
  induction a as [| c a IH]; rewrite endsWith_unfold.
  - change ("" +:+ p) with p. by rewrite String.eqb_refl.
  - rewrite string_app_cons, IH. apply orb_true_r.
Qed.

(** X14: the test on the file name looks at the extension without regard
    to letter case: whatever the stem, a name whose extension is [.pdf]
    once in lower case ([.PDF], [.Pdf], ...) passes. *)
Theorem pdf_extension_any_case stem extension :
  Text.toLowerCase extension = ".pdf" →
  Text.endsWith ".pdf" (Text.toLowerCase (stem +:+ extension)) = true.
Proof.
  intros H. rewrite toLowerCase_app, H. apply endsWith_app.
Qed.

Lemma pdf_extension_any_case_witness :
  Text.endsWith ".pdf" (Text.toLowerCase ("Tides of March" +:+ ".PdF")) = true.
Proof.
  apply (pdf_extension_any_case "Tides of March" ".PdF"). reflexivity.
Defined.

(** ** The quick actions *)

Lemma beginTurn_overwrites r now message s :
  beginTurn r now (setUserMessage message s) = beginTurn r now s.
Proof. reflexivity. Qed.

Lemma handleQuickAction_open r message now net s :
  isLoading r = false →
  JS.truthy (selectedPDF r) = true →
  hasVisible (apiKey r) = true →
  handleQuickAction r message now net s =
  handleSubmit r now net (setUserMessage message s).
Proof.
  intros Hload Hpdf Hkey. unfold handleQuickAction.
  by rewrite Hload, Hpdf, trim_truthy, Hkey.
Qed.

(** X15: the message of a quick action is not what is sent.  The
    [handleSubmit] it awaits reads the text box of its own render: when
    that text passes the guards, the quick action does exactly what a
    plain submission of that text does, and its own message is
    nowhere. *)
Theorem quick_action_sends_the_text_box r message now net s :
  isLoading r = false →
  accepted r = true →
  JS.truthy (selectedPDF r) = true →
  handleQuickAction r message now net s = handleSubmit r now net s.
Proof.
  intros Hload Hacc Hpdf.
  assert (hasVisible (apiKey r) = true) as Hkey.
  { rewrite accepted_visible in Hacc.
    apply andb_prop in Hacc as [Hacc _]. by apply andb_prop in Hacc as [_ ?]. }
  rewrite handleQuickAction_open by assumption.
  rewrite !handleSubmit_accepted by exact Hacc.
  by rewrite beginTurn_overwrites.
Qed.

Lemma quick_action_sends_the_text_box_witness :
  handleQuickAction (typing "hm" "doc-1" "tvly-test")
    "Provide a comprehensive summary of this podcast episode" noon
    (Stream ["Sure."] Done) (typing "hm" "doc-1" "tvly-test") =
  handleSubmit (typing "hm" "doc-1" "tvly-test") noon (Stream ["Sure."] Done)
    (typing "hm" "doc-1" "tvly-test").
Proof.
  apply (quick_action_sends_the_text_box (typing "hm" "doc-1" "tvly-test")
           "Provide a comprehensive summary of this podcast episode" noon
           (Stream ["Sure."] Done) (typing "hm" "doc-1" "tvly-test"));
    reflexivity.
Defined.

(** X16: with the text box blank, a quick action sends nothing.  It puts
    its message in the text box and stops there: no request, no alert,
    and the transcript as it was. *)
Theorem quick_action_on_blank_box r message now net s :
  isLoading r = false →
  JS.truthy (selectedPDF r) = true →
  hasVisible (apiKey r) = true →
  hasVisible (userMessage r) = false →
  handleQuickAction r message now net s = (setUserMessage message s, []).
Proof.
  intros Hload Hpdf Hkey Hblank.
  rewrite handleQuickAction_open by assumption.
  unfold handleSubmit. by rewrite trim_truthy, Hblank.
Qed.

Lemma quick_action_on_blank_box_witness :
  handleQuickAction (typing "" "doc-1" "tvly-test")
    "Provide a comprehensive summary of this podcast episode" noon
    (Stream ["never read"] Done) (typing "" "doc-1" "tvly-test") =
  (setUserMessage "Provide a comprehensive summary of this podcast episode"
     (typing "" "doc-1" "tvly-test"), []).
Proof.
  apply (quick_action_on_blank_box (typing "" "doc-1" "tvly-test")
           "Provide a comprehensive summary of this podcast episode" noon
           (Stream ["never read"] Done) (typing "" "doc-1" "tvly-test"));
    reflexivity.
Defined.

(** ** The name of the selected document *)

(** X17: [getSelectedPDFName] answers ["None"] when no listed document has
    the selected id, and any other answer is the file name of a listed
    document with that id. *)
Theorem getSelectedPDFName_sound r :
  ((∀ pdf, pdf ∈ uploadedPDFs r → pdf_id pdf ≠ selectedPDF r) →
   getSelectedPDFName r = "None") ∧
  (getSelectedPDFName r ≠ "None" →
   ∃ pdf, pdf ∈ uploadedPDFs r ∧ pdf_id pdf = selectedPDF r ∧
          filename pdf = getSelectedPDFName r).
Proof.
  unfold getSelectedPDFName.
  destruct (List.find _ (uploadedPDFs r)) as [pdf |] eqn:Hfind.
  - apply List.find_some in Hfind as [Hin Hid].
    apply list_elem_of_In in Hin. apply String.eqb_eq in Hid.
    split; [intros Hnone; by destruct (Hnone pdf Hin) |].
    intros _. by exists pdf.
  - split; [done |]. intros H. by destruct H.
Qed.

Lemma getSelectedPDFName_sound_witness :
  ((∀ pdf, pdf ∈ uploadedPDFs (withDocument doc1) →
           pdf_id pdf ≠ selectedPDF (withDocument doc1)) →
   getSelectedPDFName (withDocument doc1) = "None") ∧
  (getSelectedPDFName (withDocument doc1) ≠ "None" →
   ∃ pdf, pdf ∈ uploadedPDFs (withDocument doc1) ∧
          pdf_id pdf = selectedPDF (withDocument doc1) ∧
          filename pdf = getSelectedPDFName (withDocument doc1)).
Proof. apply (getSelectedPDFName_sound (withDocument doc1)). Defined.

(** ** Code blocks of the rendered markdown *)

Lemma takeWord_app word rest :
  allWord word = true → wordEnds rest = true →
  Text.takeWord (word +:+ rest) = word.
Proof.
  intros Hword Hrest. induction word as [| c word IH].
  - destruct rest as [| x rest]; [reflexivity |]. simpl in *.
    apply negb_true_iff in Hrest. by rewrite Hrest.
  - simpl in Hword. apply andb_prop in Hword as [Hc Hword].
    rewrite string_app_cons. simpl. by rewrite Hc, IH.
Qed.

Lemma languageOf_unfold className :
  Markdown.languageOf className =
  match
    match JS.literal "language-" className with
    | Some rest =>
        match Text.takeWord rest with
        | "" => None
        | language => Some language
        end
    | None => None
    end
  with
  | Some language => Some language
  | None =>
      match className with
      | "" => None
      | String _ className' => Markdown.languageOf className'
      end
  end.
Proof. destruct className; reflexivity. Qed.

Lemma languageOf_exact language rest :
  language ≠ "" → allWord language = true → wordEnds rest = true →
  Markdown.languageOf ("language-" +:+ language +:+ rest) = Some language.
Proof.
  intros Hne Hword Hrest.
  rewrite languageOf_unfold, literal_app, takeWord_app by assumption.
  by destruct language.
Qed.

Lemma stripFinalNewline_unfold c rest :
  Markdown.stripFinalNewline (String c rest) =
  match rest with
  | "" => if Ascii.eqb c "010" then "" else String c ""
  | String _ _ => String c (Markdown.stripFinalNewline rest)
  end.
Proof. by destruct rest. Qed.

Lemma stripFinalNewline_app text :
  Markdown.stripFinalNewline (text +:+ LF) = text.
Proof.
  induction text as [| c text IH]; [reflexivity |].
  rewrite string_app_cons, stripFinalNewline_unfold, IH.
  by destruct text.
Qed.

(** X18: a fenced block of a language comes out highlighted in that
    language, without the line feed that ends it.  For a class
    [language-L], with [L] a non-empty run of letters, digits and
    underscores, a block whose text ends in a line feed is handed to the
    highlighter with the language [L] and the text before that line
    feed. *)
Theorem code_block_highlighted language text :
  language ≠ "" →
  allWord language = true →
  Markdown.code false (Some ("language-" +:+ language)) (text +:+ LF) =
  Markdown.Highlighted language text.
Proof.
  intros Hne Hword. unfold Markdown.code. simpl default.
  assert (JS.or_else ("language-" +:+ language) "" = "language-" +:+ language)
    as -> by reflexivity.
  rewrite <- (string_app_nil_r language) at 1.
  rewrite (languageOf_exact language "" Hne Hword eq_refl). simpl.
  by rewrite stripFinalNewline_app.
Qed.

Lemma code_block_highlighted_witness :
  Markdown.code false (Some ("language-" +:+ "python3")) ("print(1)" +:+ LF) =
  Markdown.Highlighted "python3" "print(1)".
Proof.
  apply (code_block_highlighted "python3" "print(1)"); [discriminate | reflexivity].
Defined.

(** Only one line feed goes.  The text handed to the highlighter is
    the text of the block without its last code unit when that is a line
    feed, and the text of the block as it is otherwise. *)
Theorem stripFinalNewline_once text :
  Markdown.stripFinalNewline (text +:+ LF) = text ∧
  (Text.endsWith LF text = false → Markdown.stripFinalNewline text = text).
Proof.
  split; [apply stripFinalNewline_app |].
  induction text as [| c text IH]; [reflexivity |].
  rewrite endsWith_unfold, stripFinalNewline_unfold. intros H.
  apply orb_false_elim in H as [Hhere Hrest].
  destruct text as [| x text].
  - destruct (Ascii.eqb_spec c "010") as [-> | _]; [discriminate Hhere | reflexivity].
  - by rewrite (IH Hrest).
Qed.

Lemma stripFinalNewline_once_witness :
  Markdown.stripFinalNewline (("a" +:+ LF) +:+ LF) = "a" +:+ LF ∧
  (Text.endsWith LF ("a" +:+ LF) = false →
   Markdown.stripFinalNewline ("a" +:+ LF) = "a" +:+ LF).
Proof. apply (stripFinalNewline_once ("a" +:+ LF)). Defined.

Lemma takeWord_allWord s : allWord (Text.takeWord s) = true.
Proof.
  induction s as [| c s IH]; [reflexivity |]. simpl.
  destruct (Text.isWordUnit c) eqn:Hc; [| reflexivity]. simpl. by rewrite Hc.
Qed.

(** X20: the language that the expression reports is never empty, is made
    of letters, digits and underscores only, and stands in the class name
    behind [language-]. *)
Theorem languageOf_sound className language :
  Markdown.languageOf className = Some language →
  language ≠ "" ∧ allWord language = true ∧
  JS.includes ("language-" +:+ language) className = true.
Proof.
  induction className as [| c className IH]; rewrite languageOf_unfold.
  - destruct (JS.literal "language-" "") eqn:Hlit; discriminate.
  - destruct (JS.literal "language-" (String c className)) as [rest |] eqn:Hlit.
    + destruct (Text.takeWord rest) as [| x word] eqn:Hword.
      * intros H. destruct (IH H) as (Hne & Hall & Hinc).
        repeat split; try done. rewrite includes_unfold, Hinc. apply orb_true_r.
      * intros [= <-]. split; [discriminate |]. split.
        { rewrite <- Hword. apply takeWord_allWord. }
        apply literal_Some in Hlit. rewrite Hlit.
        assert (∃ tail, rest = String x word +:+ tail) as [tail ->].
        { clear Hlit IH. revert x word Hword.
          induction rest as [| y rest IHrest]; intros x word Hword; [discriminate |].
          simpl in Hword. destruct (Text.isWordUnit y); [| discriminate].
          injection Hword as -> Hword. destruct word as [| z word].
          - by exists rest.
          - destruct (IHrest _ _ Hword) as [tail ->]. by exists tail. }
        rewrite <- string_app_assoc. apply includes_app_l.
        rewrite includes_unfold. unfold JS.startsWith.
        rewrite <- (string_app_nil_r ("language-" +:+ String x word)) at 2.
        by rewrite literal_app.
    + intros H. destruct (IH H) as (Hne & Hall & Hinc).
      repeat split; try done. rewrite includes_unfold, Hinc. apply orb_true_r.
Qed.

Lemma languageOf_sound_witness :
  "js" ≠ "" ∧ allWord "js" = true ∧
  JS.includes ("language-" +:+ "js") "hljs language-js" = true.
Proof. apply (languageOf_sound "hljs language-js" "js"). reflexivity. Defined.

(** ** The routes between the page and the back end *)

Section RouteFacts.

Context {Number : Type} (isZero : Number → bool) (show : Number → string).

Lemma isOk_constructible status :
  Route.isOk status = false → Route.isOk (if Route.constructible status then status else 500) = false.
Proof. intros H. by destruct (Route.constructible status). Qed.






Lemma detailSeen_failure status (message : Route.JSON Number) :
  Route.detailSeen show (Route.failure status message) = Some "undefined".
Proof. reflexivity. Qed.

Lemma errorReply_seen fallback caught status (error : Route.JSON Number) :
  Route.detailSeen show (Route.errorReply isZero fallback caught status error)
  = Some "undefined".
Proof.
  unfold Route.errorReply. destruct (Route.detailOf error); [reflexivity |].
  by destruct (Route.constructible status).
Qed.

(** X24: what the back end says about a failed removal never reaches the
    user.  The route answers [{ error: ... }] and the page reads
    [error.detail]: for every answer of the route that is not ok, the page
    alerts ["Delete failed: undefined"], and leaves its store as it
    was. *)
Theorem delete_failure_alert r env pdfId (backend : Route.Backend Number) listing s :
  let reply := (Route.deletePDF isZero env pdfId backend).1 in
  Route.isOk (Route.replyStatus reply) = false →
  handleDeletePDF r pdfId true (DeleteNotOk (Route.detailSeen show reply)) listing s =
  (s, [ Confirm "Are you sure you want to delete this PDF?";
        Fetch ("/api/pdfs/" +:+ pdfId) "DELETE" [];
        Alert "Delete failed: undefined" ]).
Proof.
  intros reply Hok.
  assert (Route.detailSeen show reply = Some "undefined") as ->; [| reflexivity].
  unfold reply, Route.deletePDF in *.
  destruct backend as [| status [body |]]; simpl in *; try reflexivity.
  destruct (Route.isOk status); [discriminate |]. apply errorReply_seen.
Qed.

(** X25: the same holds for a failed upload: for every answer of the
    upload route that is not ok, the page alerts
    ["Upload failed: undefined"], whatever [detail] the back end gave, and
    only puts the upload flag off. *)
Theorem upload_failure_alert r name env form (backend : Route.Backend Number) listing s :
  uploadable r (Some name) = true →
  let reply := (Route.uploadPDF isZero env form backend).1 in
  Route.isOk (Route.replyStatus reply) = false →
  handleFileUpload r (Some name) (UploadNotOk (Route.detailSeen show reply)) listing s =
  (setIsUploading false s,
   [ Fetch "/api/upload-pdf" "POST" [("file", name); ("api_key", apiKey r)];
     Alert "Upload failed: undefined" ]).
Proof.
  intros Hup reply Hok.
  assert (Route.detailSeen show reply = Some "undefined") as ->.
  { unfold reply, Route.uploadPDF in *. destruct form as [formData |]; [| reflexivity].
    destruct backend as [| status [body |]]; simpl in *; try reflexivity.
    destruct (Route.isOk status); [discriminate |]. apply errorReply_seen. }
  unfold uploadable in Hup. rewrite <- trim_truthy in Hup.
  apply andb_prop in Hup as [Hkey Hname].
  unfold handleFileUpload. by rewrite Hkey, Hname.
Qed.

End RouteFacts.

(** X26: with a document selected, whatever goes wrong behind the chat
    route (the body of the request does not parse, the back end cannot be
    reached, the back end answers with a status that is not ok) ends the
    turn with the apology behind the user message; and what the back end
    streams with an ok status reaches the loop of the page chunk for
    chunk. *)
Theorem chat_route_failure_apologises r now env body backend s :
  accepted r = true →
  let reply := (Route.chatPDF env body backend).1 in
  match reply with
  | Route.Refused =>
      messages (handleSubmit r now (Route.chatSeen reply) s).1 =
      messages s ++
      [ {| role := user; content := userMessage r; timestamp := userTime now |};
        {| role := assistant; content := apology; timestamp := errorTime now |} ]
  | Route.Piped chunks e =>
      ∃ status fields,
        body = Some fields ∧
        backend = Route.ChatBackendAnswers status chunks e ∧
        Route.isOk status = true
  end.
Proof.
  intros Hacc reply.
  assert (messages (handleSubmit r now NotOk s).1 =
          messages s ++
          [ {| role := user; content := userMessage r; timestamp := userTime now |};
            {| role := assistant; content := apology; timestamp := errorTime now |} ])
    as Hsorry.
  { rewrite handleSubmit_accepted by exact Hacc. simpl. by rewrite <- app_assoc. }
  unfold reply, Route.chatPDF.
  destruct body as [fields |]; [| exact Hsorry].
  destruct backend as [| status chunks e]; [exact Hsorry |]. cbn [fst].
  destruct (Route.isOk status) eqn:Hok; [| exact Hsorry].
  by exists status, fields.
Qed.

Lemma chat_route_failure_apologises_witness :
  messages
    (handleSubmit (typing "What is said about tides?" "doc-1" "tvly-test") noon
       (Route.chatSeen
          (Route.chatPDF None (Some [("message", "What is said about tides?")])
             (Route.ChatBackendAnswers 503 ["Service Unavailable"] Done)).1)
       (typing "What is said about tides?" "doc-1" "tvly-test")).1 =
  [ {| role := user; content := "What is said about tides?"; timestamp := 1 |};
    {| role := assistant; content := apology; timestamp := 3 |} ].
Proof.
  apply (chat_route_failure_apologises
           (typing "What is said about tides?" "doc-1" "tvly-test") noon None
           (Some [("message", "What is said about tides?")])
           (Route.ChatBackendAnswers 503 ["Service Unavailable"] Done)
           (typing "What is said about tides?" "doc-1" "tvly-test")).
  reflexivity.
Defined.


Lemma delete_failure_alert_witness :
  handleDeletePDF (withDocument doc1) "doc-1" true
    (DeleteNotOk
       (Route.detailSeen (λ n : Z, "0")
          (Route.deletePDF (Z.eqb 0) None "doc-1"
             (Route.BackendAnswers 404
                (Some (Route.JObject [("detail", Route.JString "PDF not found")])))).1))
    (ListOk []) (withDocument doc1) =
  (withDocument doc1,
   [ Confirm "Are you sure you want to delete this PDF?";
     Fetch ("/api/pdfs/" +:+ "doc-1") "DELETE" [];
     Alert "Delete failed: undefined" ]).
Proof.
  apply (delete_failure_alert (Z.eqb 0) (λ n : Z, "0") (withDocument doc1) None "doc-1"
           (Route.BackendAnswers 404
              (Some (Route.JObject [("detail", Route.JString "PDF not found")])))
           (ListOk []) (withDocument doc1)).
  reflexivity.
Defined.

Lemma upload_failure_alert_witness :
  handleFileUpload asking (Some "tides.pdf")
    (UploadNotOk
       (Route.detailSeen (λ n : Z, "0")
          (Route.uploadPDF (Z.eqb 0) None (Some [("file", "tides.pdf")])
             (Route.BackendAnswers 400
                (Some (Route.JObject [("detail", Route.JString "No text in file")])))).1))
    (ListOk []) asking =
  (setIsUploading false asking,
   [ Fetch "/api/upload-pdf" "POST" [("file", "tides.pdf"); ("api_key", apiKey asking)];
     Alert "Upload failed: undefined" ]).
Proof.
  apply (upload_failure_alert (Z.eqb 0) (λ n : Z, "0") asking "tides.pdf" None
           (Some [("file", "tides.pdf")])
           (Route.BackendAnswers 400
              (Some (Route.JObject [("detail", Route.JString "No text in file")])))
           (ListOk []) asking); reflexivity.
Defined.


(** ** The stream as a whole *)

(** X27: where no sentinel is involved, the boundaries between chunks do
    not matter to a turn.  Two neighbouring chunks whose joined text holds
    no sentinel can arrive as one chunk instead, anywhere in the stream:
    the store at the end of the turn and the effects are the same. *)
Theorem plain_chunks_may_be_joined r now front c1 c2 back e s :
  JS.includes Marker.SENTINEL (c1 +:+ c2) = false →
  handleSubmit r now (Stream (front ++ c1 :: c2 :: back) e) s =
  handleSubmit r now (Stream (front ++ (c1 +:+ c2) :: back) e) s.
Proof.
  intros Hplain.
  assert (∀ l, readChunks r (front ++ c1 :: c2 :: back) l =
               readChunks r (front ++ (c1 +:+ c2) :: back) l) as Hloop.
  { intros l. rewrite !readChunks_app.
    destruct (readChunks r front l) as [am s'].
    change (readChunks r (c1 :: c2 :: back) (am, s'))
      with (readChunks r back (readChunks r [c1; c2] (am, s'))).
    change (readChunks r ((c1 +:+ c2) :: back) (am, s'))
      with (readChunks r back (readChunks r [c1 +:+ c2] (am, s'))).
    by rewrite plain_text_boundary. }
  unfold handleSubmit, tryBlock. by rewrite Hloop.
Qed.

Lemma plain_chunks_may_be_joined_witness :
  handleSubmit asking noon
    (Stream ([marker "pdf_rag_tool"] ++ "It is " :: "about" :: [" tides"]) Done) asking =
  handleSubmit asking noon
    (Stream ([marker "pdf_rag_tool"] ++ ("It is " +:+ "about") :: [" tides"]) Done) asking.
Proof.
  apply (plain_chunks_may_be_joined asking noon [marker "pdf_rag_tool"]
           "It is " "about" [" tides"] Done asking).
  reflexivity.
Defined.

(** X28: a chunk that holds a complete marker gives nothing to the
    transcript, whatever else it holds.  With a sentinel, a non-empty name
    on one line and a sentinel anywhere in a chunk, a turn that ends
    normally has the transcript it would have without that chunk. *)
Theorem marker_chunk_gives_no_text r now front pre name post back s :
  accepted r = true →
  name ≠ "" →
  oneLine name = true →
  messages
    (handleSubmit r now
       (Stream (front ++ (pre +:+ Marker.SENTINEL +:+ name +:+ Marker.SENTINEL +:+ post)
                         :: back) Done) s).1 =
  messages (handleSubmit r now (Stream (front ++ back) Done) s).1.
Proof.
  intros Hacc Hne Hline. rewrite !handleSubmit_stream_done by exact Hacc.
  rewrite !contentOf_app. simpl.
  destruct (toolMatch_complete pre name post Hne Hline) as [found Hfound].
  unfold eventOf. by rewrite (toolMatch_includes _ _ Hfound), Hfound.
Qed.

Lemma marker_chunk_gives_no_text_witness :
  messages
    (handleSubmit asking noon
       (Stream (["It is "] ++
                ("about " +:+ Marker.SENTINEL +:+ "pdf_rag_tool" +:+ Marker.SENTINEL
                 +:+ " tides") :: ["."]) Done) asking).1 =
  messages (handleSubmit asking noon (Stream (["It is "] ++ ["."]) Done) asking).1.
Proof.
  apply (marker_chunk_gives_no_text asking noon ["It is "] "about " "pdf_rag_tool"
           " tides" ["."] asking); [reflexivity | discriminate | reflexivity].
Defined.

Lemma lastTool_from r chunks :
  isUsingTool r = false →
  ∀ found l,
    (∀ toolName, found = Some toolName →
                 isUsingTool l.2 = true ∧ currentTool l.2 = toolName) →
    let s' := (readChunks r chunks l).2 in
    match fold_left (λ found chunk,
                       match eventOf chunk with
                       | Tool toolName => Some toolName
                       | Content _ => found
                       end) chunks found
    with
    | Some toolName => isUsingTool s' = true ∧ currentTool s' = toolName
    | None => isUsingTool s' = isUsingTool l.2 ∧ currentTool s' = currentTool l.2
    end.
Proof.
  intros Hr. induction chunks as [| chunk chunks IH]; intros found [am s] Hfound.
  - simpl. destruct found as [toolName |]; [by apply Hfound | done].
  - change (readChunks r (chunk :: chunks) (am, s))
      with (readChunks r chunks (readChunk r chunk (am, s))).
    simpl fold_left. rewrite readChunk_event.
    destruct (eventOf chunk) as [text | toolName].
    + rewrite Hr, andb_false_r.
      exact (IH found
               (am +:+ text, setMessages (showAssistantMessage (am +:+ text)) s)
               Hfound).
    + specialize (IH (Some toolName)
                     (am, setIsUsingTool true (setCurrentTool toolName s))).
      simpl in IH.
      destruct (fold_left _ chunks (Some toolName)) as [last |] eqn:Hlast.
      * apply IH. by intros ? [= <-].
      * exfalso. clear -Hlast. revert toolName Hlast.
        induction chunks as [| c chunks IHc]; intros toolName Hlast; [discriminate |].
        simpl in Hlast. destruct (eventOf c); eauto.
Qed.

(** X29: in a turn started from a render with the tool indicator off, the
    tool state after any number of chunks is that of the last chunk in
    which the expression matched: that tool, shown.  With no such chunk
    the tool state is as it was.  Content in between does not change
    it. *)
Theorem tool_is_last_marker r chunks am s :
  isUsingTool r = false →
  let s' := (readChunks r chunks (am, s)).2 in
  match lastTool chunks with
  | Some toolName => isUsingTool s' = true ∧ currentTool s' = toolName
  | None => isUsingTool s' = isUsingTool s ∧ currentTool s' = currentTool s
  end.
Proof.
  intros Hr s'.
  apply (lastTool_from r chunks Hr None (am, s)). intros toolName H.
  discriminate H.
Qed.

Lemma tool_is_last_marker_witness :
  let s' := (readChunks asking
               [marker "pdf_rag_tool"; "It is"; marker "tavily_search_tool"; " about"]
               ("", asking)).2 in
  isUsingTool s' = true ∧ currentTool s' = "tavily_search_tool".
Proof.
  apply (tool_is_last_marker asking
           [marker "pdf_rag_tool"; "It is"; marker "tavily_search_tool"; " about"]
           "" asking).
  reflexivity.
Defined.

(** ** Sessions *)

Lemma handleSubmit_atRest r now net s :
  atRest s → atRest (handleSubmit r now net s).1.
Proof.
  intros Hs. destruct (accepted r) eqn:Hacc.
  - rewrite handleSubmit_accepted by exact Hacc.
    destruct (tryBlock_outsideChat r now net (beginTurn r now s)) as (Ho & _).
    apply (f_equal (λ t, t.1.1.1.1.2)) in Ho.
    destruct Hs as (_ & _ & Hup & _).
    destruct (tryBlock r now net (beginTurn r now s)) as [[] s'];
      repeat split; by rewrite <- Hup.
  - by destruct (handleSubmit_rejected r now net s Hacc) as [-> _].
Qed.

Lemma handleSubmit_appends r now net s :
  ∃ added, messages (handleSubmit r now net s).1 = messages s ++ added.
Proof.
  destruct (accepted r) eqn:Hacc.
  - rewrite handleSubmit_accepted by exact Hacc.
    pose proof (tryBlock_messages r now net (beginTurn r now s)
                  (messages s ++ [ {| role := user; content := userMessage r;
                                      timestamp := userTime now |} ]) eq_refl) as H.
    rewrite <- app_assoc in H. eexists. exact H.
  - destruct (handleSubmit_rejected r now net s Hacc) as [-> _].
    exists []. by rewrite app_nil_r.
Qed.

(** A handler that keeps the transcript and the flags of the chat. *)
Ltac keeps_rest :=
  split; [reflexivity | intros (? & ? & ? & ? & ?); by repeat split].

Lemma handleFileUpload_rest r file up listing s :
  messages (handleFileUpload r file up listing s).1 = messages s ∧
  (atRest s → atRest (handleFileUpload r file up listing s).1).
Proof.
  unfold handleFileUpload, loadUploadedPDFs, atRest.
  destruct file as [name |]; [| keeps_rest].
  destruct (negb (JS.truthy (JS.trim (apiKey r)))); [keeps_rest |].
  destruct (negb (Text.endsWith ".pdf" (Text.toLowerCase name))); [keeps_rest |].
  destruct up as [| [detail |] | [[pdf message] |]]; try keeps_rest.
  destruct listing; keeps_rest.
Qed.

Lemma handleDeletePDF_rest r pdfId confirmed del listing s :
  messages (handleDeletePDF r pdfId confirmed del listing s).1 = messages s ∧
  (atRest s → atRest (handleDeletePDF r pdfId confirmed del listing s).1).
Proof.
  unfold handleDeletePDF, loadUploadedPDFs, atRest.
  destruct confirmed; [| keeps_rest]. simpl.
  destruct del as [| [detail |] |]; try keeps_rest.
  destruct (bool_decide (selectedPDF r = pdfId)); destruct listing; keeps_rest.
Qed.

Lemma perform_atRest a s : atRest s → atRest (perform a s).
Proof.
  intros Hs. destruct a; simpl; try exact Hs.
  - by destruct listing.
  - by apply handleSubmit_atRest.
  - unfold handleQuickAction.
    destruct (isLoading s || negb (JS.truthy (selectedPDF s))
              || negb (JS.truthy (JS.trim (apiKey s)))); [exact Hs |].
    by apply handleSubmit_atRest.
  - by apply handleFileUpload_rest.
  - by apply handleDeletePDF_rest.
Qed.

Lemma perform_appends a s :
  ∃ added, messages (perform a s) = messages s ++ added.
Proof.
  destruct a; simpl;
    try (exists []; by rewrite app_nil_r).
  - exists []. rewrite app_nil_r. by destruct listing.
  - apply handleSubmit_appends.
  - unfold handleQuickAction.
    destruct (isLoading s || negb (JS.truthy (selectedPDF s))
              || negb (JS.truthy (JS.trim (apiKey s))));
      [exists []; by rewrite app_nil_r |].
    apply (handleSubmit_appends s now net (setUserMessage message s)).
  - exists []. rewrite app_nil_r. apply handleFileUpload_rest.
  - exists []. rewrite app_nil_r. apply handleDeletePDF_rest.
Qed.

(** X19: between two actions the page is at rest.  After any sequence of
    actions, each run to its end from the first render on and whatever the
    back end answered to each, no flag is left on: [isLoading],
    [isStreaming] and [isUploading] are false and no tool is shown. *)
Theorem page_at_rest openaiKey tavilyKey actions :
  atRest (session actions (initialState openaiKey tavilyKey)).
Proof.
  assert (∀ s, atRest s → atRest (session actions s)) as Hrun.
  { induction actions as [| a actions IH]; intros s Hs; [exact Hs |].
    apply (IH (perform a s)). by apply perform_atRest. }
  apply Hrun. by repeat split.
Qed.

(** X30: the transcript is append-only.  No action ever removes or
    changes a message that is in the transcript once the action before it
    has ended: the transcript after any sequence of actions is the
    transcript before it with messages added at the end. *)
Theorem transcript_append_only actions s :
  ∃ added, messages (session actions s) = messages s ++ added.
Proof.
  revert s. induction actions as [| a actions IH]; intros s.
  - exists []. by rewrite app_nil_r.
  - destruct (perform_appends a s) as [first Hfirst].
    destruct (IH (perform a s)) as [more Hmore].
    exists (first ++ more).
    change (session (a :: actions) s) with (session actions (perform a s)).
    by rewrite Hmore, Hfirst, app_assoc.
Qed.
